(** * The distributed DQN agent of [rl_darts/algorithms/rainbow/agent_distributed.py]

  A shallow embedding of the class [DistributedDQN]: its constructor, the
  replay table it declares, the actor and evaluator constructors and the
  Launchpad topology assembled by [build].

  Python integers are [Z]; Python floats given in a configuration are
  IEEE-754 values ([spec_float]); exceptions are the [Raise] case of
  [Py.result]; calls into collaborators (environment and network
  factories, Acme, Reverb, Launchpad) are recorded in the order in which
  the Python code issues them. *)

From Stdlib Require Import ZArith QArith Qreals Reals Lqa Lra Lia List String.
From Stdlib Require Import Floats.SpecFloat.
From stdpp Require Import base list gmap strings pretty.
Import ListNotations.

Local Open Scope Z_scope.

(** ** Python values, exceptions and sequential effects *)

Module Py.

Inductive exn : Set :=
| AssertionError
| ValueError
| ZeroDivisionError
| IndexError.

Inductive result (A : Type) : Type :=
| Ok (a : A)
| Raise (e : exn).
Arguments Ok {A} a.
Arguments Raise {A} e.

(** A computation over a mutable store [S]: it returns a value or raises,
    and the store keeps every mutation made before the exception. *)
Definition M (S A : Type) : Type := S -> result A * S.

Definition ret {S A} (a : A) : M S A := fun s => (Ok a, s).

Definition bind {S A B} (m : M S A) (k : A -> M S B) : M S B :=
  fun s =>
    match m s with
    | (Ok a, s') => k a s'
    | (Raise e, s') => (Raise e, s')
    end.

Definition raise {S A} (e : exn) : M S A := fun s => (Raise e, s).

Definition modify {S} (f : S -> S) : M S unit := fun s => (Ok tt, f s).

(** [assert c] *)
Definition assert {S} (c : bool) : M S unit :=
  if c then ret tt else raise AssertionError.

(** [for x in xs: body x] *)
Fixpoint for_each {S A} (xs : list A) (body : A -> M S unit) : M S unit :=
  match xs with
  | [] => ret tt
  | x :: xs' => bind (body x) (fun _ => for_each xs' body)
  end.

(** [range(n)]: empty when [n <= 0]. *)
Definition range (n : Z) : list Z :=
  Z.of_nat <$> seq 0 (Z.to_nat n).

(** [enumerate(xs)] *)
Definition enumerate {A} (xs : list A) : list (nat * A) :=
  combine (seq 0 (length xs)) xs.

(** A Python [float]. *)
Abbreviation float := spec_float (only parsing).

(** Truth value of a float, as tested by [if x:]: every value but [0.0]
    and [-0.0] is true (NaN included). *)
Definition truthy (x : float) : bool :=
  match x with
  | S754_zero _ => false
  | _ => true
  end.

(** The real number a finite float stands for; infinities and NaN have
    none and are sent to 0. *)
Definition float_to_R (x : float) : R :=
  match x with
  | S754_finite s m e => (IZR (cond_Zopp s (Z.pos m)) * powerRZ 2 e)%R
  | _ => 0%R
  end.

(** An exception raised by a pure library call surfaces in the caller. *)
Definition lift {S A} (r : result A) : M S A := fun s => (r, s).

(** [for x in xs: acc = body x acc], for a loop that grows a local value. *)
Fixpoint for_fold {S A B} (xs : list A) (acc : B) (body : A -> B -> M S B)
  : M S B :=
  match xs with
  | [] => ret acc
  | x :: xs' => bind (body x acc) (fun acc' => for_fold xs' acc' body)
  end.

(** [a % b] on non-negative integers. *)
Definition mod_ {S} (a b : nat) : M S nat :=
  if Nat.eqb b 0 then raise ZeroDivisionError else ret (a mod b)%nat.

(** [xs[i]] for a non-negative index. *)
Definition getitem {S A} (xs : list A) (i : nat) : M S A :=
  match xs !! i with
  | Some x => ret x
  | None => raise IndexError
  end.

End Py.

Export Py.

#[global] Instance M_ret {S} : MRet (Py.M S) := fun A => @Py.ret S A.
#[global] Instance M_bind {S} : MBind (Py.M S) := fun A B k m => Py.bind m k.

(** ** numpy: the three array functions used by [build] *)

Module Np.

(** A float64 obtained as [base ** exponent].  The model keeps the exact
    rational base and exponent; [value] is the real number it stands
    for.  numpy rounds every intermediate result to binary64, which the
    model does not. *)
Record power : Set := Power { base : Q; exponent : Q }.

Definition value (p : power) : R := Rpower (Q2R (base p)) (Q2R (exponent p)).

(** [np.arange(0, num)] *)
Definition arange (num : nat) : list Q :=
  (fun i => inject_Z (Z.of_nat i)) <$> seq 0 num.

(** [np.linspace(start, stop, num)] with [endpoint=True]: [num] evenly
    spaced samples, the last one set to [stop]; a negative [num] is a
    [ValueError]. *)
Definition linspace (start stop : Q) (num : Z) : result (list Q) :=
  if num <? 0 then Raise ValueError
  else
    let div := num - 1 in
    let delta := (stop - start)%Q in
    let y := arange (Z.to_nat num) in
    let y :=
      if 0 <? div
      then let step := (delta / inject_Z div)%Q in (fun v => (v * step)%Q) <$> y
      else (fun v => (v * delta)%Q) <$> y in
    let y := (fun v => (v + start)%Q) <$> y in
    Ok (if 1 <? num then <[pred (length y) := stop]> y else y).

(** [np.logspace(start, stop, num, base=base)] is
    [base ** linspace(start, stop, num)]. *)
Definition logspace (start stop : Q) (num : Z) (base : Q) : result (list power) :=
  match linspace start stop num with
  | Ok y => Ok (Power base <$> y)
  | Raise e => Raise e
  end.

(** [np.flip(a, axis=0)] on a one-dimensional array. *)
Definition flip {A} (a : list A) : list A := reverse a.

End Np.

(** ** Reverb: what a table is declared with *)

Module Reverb.

Inductive RateLimiter : Set :=
| SampleToInsertRatio (min_size_to_sample : Z) (samples_per_insert : float)
                      (error_buffer : Z)
| MinSize (min_size_to_sample : Z).

(** The tolerance of the sample-to-insert coupling, when there is one. *)
Definition error_buffer_of (l : RateLimiter) : option Z :=
  match l with
  | SampleToInsertRatio _ _ error_buffer => Some error_buffer
  | MinSize _ => None
  end.

(** [Prioritized e] selects an item with probability proportional to its
    priority raised to [e]; [Fifo] selects the oldest item. *)
Inductive selector : Set :=
| Prioritized (priority_exponent : float)
| Fifo.

Record Table (Sig : Type) : Type := mkTable {
  name : string;
  sampler : selector;
  remover : selector;
  max_size : Z;
  rate_limiter : RateLimiter;
  signature : Sig
}.
Arguments mkTable {Sig}.
Arguments name {Sig}.
Arguments sampler {Sig}.
Arguments remover {Sig}.
Arguments max_size {Sig}.
Arguments rate_limiter {Sig}.
Arguments signature {Sig}.

(** Modelled from the spec: the item store of a table whose remover is
    [Fifo]; the store belongs to Reverb and is not part of this
    repository.  Spec 4.1: [insert] "appends one item, evicting the
    oldest item first if at capacity"; spec 3: "size <= max_capacity".
    Items are kept oldest first: the store after the insert holds the new
    item and, before it, as many of the newest items as the capacity
    leaves room for. *)
Definition insert {Item} (max_size : Z) (items : list Item) (x : Item)
  : list Item :=
  let appended := items ++ [x] in
  drop (length appended - Z.to_nat max_size) appended.

(** The items of the table declared with [max_size] after the inserts
    [xs], starting empty.  [reverb.Table] refuses a maximum size below
    one with [ValueError]: no such table exists. *)
Definition insert_all {Item} (max_size : Z) (xs : list Item)
  : result (list Item) :=
  if max_size <? 1 then Raise ValueError
  else Ok (fold_left (insert max_size) xs []).

(** Modelled from the spec: the weight with which a selector of exponent
    [priority_exponent] draws an item; the selectors belong to Reverb and
    are not part of this repository.  Spec 3: "probability proportional to
    priority^priority_exponent", priorities being non-negative; spec 4.1:
    an item of priority 0 is "never selected unless all priorities are
    0".  The power is taken in the reals. *)
Definition weight (priority_exponent priority : float) : R :=
  let p := float_to_R priority in
  if Rlt_dec 0 p then Rpower p (float_to_R priority_exponent) else 0%R.

Definition total_weight (priority_exponent : float) (priorities : list float) : R :=
  foldr Rplus 0%R (weight priority_exponent <$> priorities).

(** Modelled from the spec: the probability that one draw of the selector
    [s] returns item [i] of a table whose items have the given
    priorities, oldest first.  When every weight is 0 the draw is
    uniform. *)
Definition selection_probability (s : selector) (priorities : list float)
    (i : nat) : R :=
  match s, priorities !! i with
  | Prioritized e, Some p =>
      if Rlt_dec 0 (total_weight e priorities)
      then (weight e p / total_weight e priorities)%R
      else (1 / INR (length priorities))%R
  | Fifo, Some _ => if Nat.eqb i 0 then 1%R else 0%R
  | _, None => 0%R
  end.

End Reverb.

(** ** Acme and the collaborators: the objects the agent constructs *)

Module Acme.

(** A node of the program as the constructors see it: the client of the
    replay server, of the counter, or of a variable source. *)
Definition handle : Set := nat.

(** The environment returned by [environment_factory(use_test_env)]. *)
Inductive Environment : Set :=
| Env (use_test_env : bool).

(** An environment specification: derived from an environment by
    [specs.make_environment_spec], or supplied by the caller. *)
Inductive EnvironmentSpec : Set :=
| SpecOf (environment : Environment)
| SpecGiven (id : nat).

(** The network returned by [network_factory(env_spec.actions)]. *)
Inductive Network : Set :=
| Net (env_spec : EnvironmentSpec).

(** [adders.DEFAULT_PRIORITY_TABLE] *)
Definition DEFAULT_PRIORITY_TABLE : string := "priority_table".

(** The signature [adders.NStepTransitionAdder.signature(env_spec)]. *)
Inductive Signature : Set :=
| NStepTransitionAdder_signature (env_spec : EnvironmentSpec).

(** An n-step transition as handed to a priority function. *)
Record Transition : Set := mkTransition {
  observation : list float;
  action : Z;
  reward : float;
  transition_discount : float;
  next_observation : list float
}.

Record VariableClient : Set := mkVariableClient {
  client : handle;
  update_period : Z
}.

Record NStepTransitionAdder : Type := mkAdder {
  adder_client : handle;
  n_step : Z;
  discount : float;
  priority_fns : gmap string (Transition -> float)
}.

(** [counting.Counter(parent, prefix)] *)
Record Counter : Set := mkCounter {
  parent : handle;
  prefix : string
}.

(** [loggers.make_default_logger(label, save_data=...)] *)
Record Logger : Set := mkLogger {
  logger_label : string;
  save_data : bool
}.

(** [epsilon_schedule.FeedForwardActorWithEpsilonSchedule], its schedule
    being [AtariEpsilonSchedule(epsilon)]. *)
Record FeedForwardActorWithEpsilonSchedule : Type := mkEpsilonActor {
  schedule : Np.power;
  actor_counter : Counter;
  policy_network : Network;
  adder : NStepTransitionAdder;
  variable_client : VariableClient
}.

Record EnvironmentLoop : Type := mkEnvironmentLoop {
  loop_environment : Environment;
  loop_actor : FeedForwardActorWithEpsilonSchedule;
  loop_counter : Counter;
  loop_logger : Logger
}.

(** [actors.FeedForwardActor] over [snt.Sequential([network, greedy])],
    the second layer being epsilon-greedy with [evaluator_epsilon]. *)
Record FeedForwardActor : Set := mkFeedForwardActor {
  eval_network : Network;
  greedy_epsilon : float;
  eval_variable_client : VariableClient
}.

(** What [evaluator_cls(...)] is called with. *)
Record EvaluatorLoop : Set := mkEvaluatorLoop {
  max_actor_steps : Z;
  label : string;
  environment : Environment;
  actor : FeedForwardActor;
  counter : Counter;
  eval_id : Z
}.

(** The calls a constructor or a running loop makes on its collaborators,
    in program order.  A call is complete when the next one is issued:
    the code is sequential, and [update_and_wait] returns only once the
    variables have arrived. *)
Inductive call : Set :=
| call_environment_factory (use_test_env : bool)
| call_make_environment_spec
| call_network_factory
| call_create_variables
| call_VariableClient (client : handle) (update_period : Z)
| call_update_and_wait (client : handle)
| call_NStepTransitionAdder
| call_Counter (prefix : string)
| call_AtariEpsilonSchedule
| call_FeedForwardActorWithEpsilonSchedule
| call_make_default_logger (label : string)
| call_EnvironmentLoop
| call_Sequential
| call_FeedForwardActor
| call_evaluator_cls (eval_id : Z)
| call_environment_reset
| call_environment_step.

Definition trace : Set := list call.

(** Issue one call. *)
Definition issue (c : call) : M trace unit := modify (fun t => t ++ [c]).

(** An action on the environment. *)
Definition is_environment_action (c : call) : bool :=
  match c with
  | call_environment_reset | call_environment_step => true
  | _ => false
  end.

Definition is_update_and_wait (c : call) : bool :=
  match c with
  | call_update_and_wait _ => true
  | _ => false
  end.

(** The creation of the loop that will drive the environment. *)
Definition is_loop_creation (c : call) : bool :=
  match c with
  | call_EnvironmentLoop | call_evaluator_cls _ => true
  | _ => false
  end.

(** The variants requested from the environment factory, in order. *)
Definition factory_requests (t : trace) : list bool :=
  omap (fun c => match c with
                 | call_environment_factory b => Some b
                 | _ => None
                 end) t.

(** Every loop creation and every environment action of a trace comes
    after an [update_and_wait] on [source]. *)
Definition fetch_precedes (source : handle) (t : trace) : Prop :=
  forall pre c post,
    t = pre ++ c :: post ->
    is_loop_creation c || is_environment_action c = true ->
    call_update_and_wait source ∈ pre.

(** The same, as a check that runs over the trace. *)
Fixpoint fetched_first (source : handle) (t : trace) : bool :=
  match t with
  | [] => true
  | c :: t' =>
      match c with
      | call_update_and_wait h =>
          if Nat.eqb h source then true else fetched_first source t'
      | _ =>
          negb (is_loop_creation c || is_environment_action c)
          && fetched_first source t'
      end
  end.

(** Modelled from the spec: the priorities an adder attaches to a
    transition it inserts, one per table; the adder belongs to Acme and
    is not part of this repository.  Spec 4.5: "attach the transition's
    default priority, insert into Replay Store". *)
Definition calculate_priorities (a : NStepTransitionAdder) (x : Transition)
  : gmap string float :=
  (fun priority_fn => priority_fn x) <$> priority_fns a.

(** Modelled from the spec: the running phase of an actor or evaluator
    process, which belongs to Acme and Launchpad and is not part of this
    repository.  Spec 4.5: after INIT the process is in RUN_LOOP, where
    it resets and steps the environment.  [actions] is any sequence of
    resets and steps; other calls are not environment actions and are
    left out. *)
Definition run_loop (actions : list call) : M trace unit :=
  for_each (filter (fun c => is_environment_action c) actions) issue.

(** Modelled from the spec: a worker process constructs its loop, then
    runs it. *)
Definition process {Loop} (construct : M trace Loop) (actions : list call)
  : M trace unit :=
  _ ← construct; run_loop actions.

End Acme.

(** ** Launchpad: programs, groups and nodes *)

Module Lp.

Import Acme.

(** The bound methods of the agent that nodes are built from. *)
Inductive method : Set :=
| m_replay
| m_counter
| m_learner
| m_evaluator
| m_actor.

Inductive arg : Set :=
| Handle (h : handle)
| Int (i : Z)
| Float (x : Np.power).

Inductive node : Set :=
| ReverbNode (priority_tables_fn : method)
| CourierNode (constructor : method) (args : list arg)
| CacherNode (source : handle) (refresh_interval_ms stale_after_ms : Z).

Record Program : Set := mkProgram {
  name : string;
  nodes : list (option string * node);
  current_group : option string
}.

(** [lp.Program(name=name)] *)
Definition new_program (name : string) : Program :=
  {| name := name; nodes := []; current_group := None |}.

(** [program.add_node(node)]: the node joins the current group; the
    handle returned refers to it. *)
Definition add_node (n : node) : M Program handle :=
  fun p =>
    (Ok (length (nodes p)),
     {| name := name p;
        nodes := nodes p ++ [(current_group p, n)];
        current_group := current_group p |}).

Definition set_group (g : option string) (p : Program) : Program :=
  {| name := name p; nodes := nodes p; current_group := g |}.

(** [with program.group(label): body] *)
Definition group {A} (label : string) (body : M Program A) : M Program A :=
  fun p =>
    let '(r, p') := body (set_group (Some label) p) in
    (r, set_group None p').

(** The node a handle refers to. *)
Definition node_of (p : Program) (h : handle) : option node :=
  snd <$> nodes p !! h.

(** The nodes of a group, in the order they were added. *)
Definition group_nodes (p : Program) (label : string) : list node :=
  snd <$> filter (fun gn => fst gn = Some label) (nodes p).

(** The handles of the nodes of a group among [ns], the first of which
    has handle [h]. *)
Fixpoint handles_from (label : string) (h : handle)
    (ns : list (option string * node)) : list handle :=
  match ns with
  | [] => []
  | (g, _) :: ns' =>
      if decide (g = Some label)
      then h :: handles_from label (S h) ns'
      else handles_from label (S h) ns'
  end.

Definition group_handles (p : Program) (label : string) : list handle :=
  handles_from label 0%nat (nodes p).

(** Nodes that were added inside [with program.group(label)]. *)
Definition labelled (label : string) (ns : list node)
  : list (option string * node) :=
  (fun n => (Some label, n)) <$> ns.

End Lp.

(** ** The agent *)

Module Agent.

Import Acme.
Import Lp.

(** The arguments of the constructor.  [environment_factory],
    [network_factory] and [evaluator_cls] are collaborators: calling them
    is recorded in the trace, and their results are [Env], [Net] and
    [EvaluatorLoop] values. *)
Record Args : Set := mkArgs {
  num_actors : Z;
  num_caches : Z;
  batch_size : Z;
  prefetch_size : Z;
  target_update_period : Z;
  samples_per_insert : float;
  min_replay_size : Z;
  max_replay_size : Z;
  importance_sampling_exponent : float;
  priority_exponent : float;
  default_priority : float;
  n_step : Z;
  learning_rate : float;
  evaluator_epsilon : float;
  discount : float;
  environment_spec : option EnvironmentSpec;
  variable_update_period : Z;
  max_actor_steps : Z;
  num_evaluators : Z
}.

(** The defaults of the signature: [32.0], [0.2], [0.6], [4.0], [1e-3],
    [0.] and [0.99] as binary64 values. *)
Definition default_args (num_actors : Z) : Args :=
  {| num_actors := num_actors;
     num_caches := 1;
     batch_size := 256;
     prefetch_size := 4;
     target_update_period := 100;
     samples_per_insert := S754_finite false 4503599627370496 (-47);
     min_replay_size := 1000;
     max_replay_size := 1000000;
     importance_sampling_exponent := S754_finite false 7205759403792794 (-55);
     priority_exponent := S754_finite false 5404319552844595 (-53);
     default_priority := S754_finite false 4503599627370496 (-50);
     n_step := 5;
     learning_rate := S754_finite false 4611686018427388 (-62);
     evaluator_epsilon := S754_zero false;
     discount := S754_finite false 8917127262193582 (-53);
     environment_spec := None;
     variable_update_period := 1000;
     max_actor_steps := 25000000;
     num_evaluators := 1 |}.

(** A configuration that differs from [a] in [max_replay_size] only. *)
Definition with_max_replay_size (n : Z) (a : Args) : Args :=
  {| num_actors := num_actors a;
     num_caches := num_caches a;
     batch_size := batch_size a;
     prefetch_size := prefetch_size a;
     target_update_period := target_update_period a;
     samples_per_insert := samples_per_insert a;
     min_replay_size := min_replay_size a;
     max_replay_size := n;
     importance_sampling_exponent := importance_sampling_exponent a;
     priority_exponent := priority_exponent a;
     default_priority := default_priority a;
     n_step := n_step a;
     learning_rate := learning_rate a;
     evaluator_epsilon := evaluator_epsilon a;
     discount := discount a;
     environment_spec := environment_spec a;
     variable_update_period := variable_update_period a;
     max_actor_steps := max_actor_steps a;
     num_evaluators := num_evaluators a |}.

(** A configuration that differs from [a] in [num_caches] only. *)
Definition with_num_caches (n : Z) (a : Args) : Args :=
  {| num_actors := num_actors a;
     num_caches := n;
     batch_size := batch_size a;
     prefetch_size := prefetch_size a;
     target_update_period := target_update_period a;
     samples_per_insert := samples_per_insert a;
     min_replay_size := min_replay_size a;
     max_replay_size := max_replay_size a;
     importance_sampling_exponent := importance_sampling_exponent a;
     priority_exponent := priority_exponent a;
     default_priority := default_priority a;
     n_step := n_step a;
     learning_rate := learning_rate a;
     evaluator_epsilon := evaluator_epsilon a;
     discount := discount a;
     environment_spec := environment_spec a;
     variable_update_period := variable_update_period a;
     max_actor_steps := max_actor_steps a;
     num_evaluators := num_evaluators a |}.

(** The attributes of an instance. *)
Record DistributedDQN : Set := mkDistributedDQN {
  _num_actors : Z;
  _num_caches : Z;
  _env_spec : EnvironmentSpec;
  _batch_size : Z;
  _prefetch_size : Z;
  _target_update_period : Z;
  _samples_per_insert : float;
  _min_replay_size : Z;
  _max_replay_size : Z;
  _importance_sampling_exponent : float;
  _priority_exponent : float;
  _default_priority : float;
  _n_step : Z;
  _learning_rate : float;
  _evaluator_epsilon : float;
  _discount : float;
  _variable_update_period : Z;
  _max_actor_steps : Z;
  _num_evaluators : Z
}.

(** The assignments [self._x = x] that end [__init__]. *)
Definition attributes (a : Args) (environment_spec : EnvironmentSpec)
  : DistributedDQN :=
  {| _num_actors := num_actors a;
     _num_caches := num_caches a;
     _env_spec := environment_spec;
     _batch_size := batch_size a;
     _prefetch_size := prefetch_size a;
     _target_update_period := target_update_period a;
     _samples_per_insert := samples_per_insert a;
     _min_replay_size := min_replay_size a;
     _max_replay_size := max_replay_size a;
     _importance_sampling_exponent := importance_sampling_exponent a;
     _priority_exponent := priority_exponent a;
     _default_priority := default_priority a;
     _n_step := n_step a;
     _learning_rate := learning_rate a;
     _evaluator_epsilon := evaluator_epsilon a;
     _discount := discount a;
     _variable_update_period := variable_update_period a;
     _max_actor_steps := max_actor_steps a;
     _num_evaluators := num_evaluators a |}.

(** [DistributedDQN.__init__] *)
Definition __init__ (a : Args) : M trace DistributedDQN :=
  assert (1 <=? num_caches a);;
  environment_spec ←
    match environment_spec a with
    | None =>
        issue (call_environment_factory false);;
        issue call_make_environment_spec;;
        mret (SpecOf (Env false))
    | Some s => mret s
    end;
  mret (attributes a environment_spec).

(** [DistributedDQN.replay] *)
Definition replay (self : DistributedDQN) : list (Reverb.Table Signature) :=
  let limiter :=
    if truthy (_samples_per_insert self)
    then
      Reverb.SampleToInsertRatio
        (_min_replay_size self) (_samples_per_insert self) (_batch_size self)
    else Reverb.MinSize (_min_replay_size self) in
  let replay_table :=
    Reverb.mkTable
      DEFAULT_PRIORITY_TABLE
      (Reverb.Prioritized (_priority_exponent self))
      Reverb.Fifo
      (_max_replay_size self)
      limiter
      (NStepTransitionAdder_signature (_env_spec self)) in
  [replay_table].

(** [DistributedDQN.actor] *)
Definition actor (self : DistributedDQN) (replay variable_source counter : handle)
    (epsilon : Np.power) : M trace EnvironmentLoop :=
  issue (call_environment_factory false);;
  let environment := Env false in
  issue call_network_factory;;
  let network := Net (_env_spec self) in
  issue call_create_variables;;
  issue (call_VariableClient variable_source (_variable_update_period self));;
  let variable_client := mkVariableClient variable_source (_variable_update_period self) in
  issue (call_update_and_wait (client variable_client));;
  issue call_NStepTransitionAdder;;
  let adder :=
    mkAdder replay (_n_step self) (_discount self)
      {[ DEFAULT_PRIORITY_TABLE := fun x : Transition => _default_priority self ]} in
  issue (call_Counter "actor");;
  let counter := mkCounter counter "actor" in
  issue call_AtariEpsilonSchedule;;
  let schedule := epsilon in
  issue call_FeedForwardActorWithEpsilonSchedule;;
  let actor := mkEpsilonActor schedule counter network adder variable_client in
  issue (call_make_default_logger "actor");;
  let logger := mkLogger "actor" false in
  issue call_EnvironmentLoop;;
  mret (mkEnvironmentLoop environment actor counter logger).

(** [DistributedDQN.evaluator] *)
Definition evaluator (self : DistributedDQN) (variable_source counter : handle)
    (eval_id : Z) : M trace EvaluatorLoop :=
  let use_test_env := 0 <? eval_id in
  issue (call_environment_factory use_test_env);;
  let environment := Env use_test_env in
  issue call_network_factory;;
  let network := Net (_env_spec self) in
  issue call_Sequential;;
  issue call_create_variables;;
  issue (call_VariableClient variable_source 1);;
  let variable_client := mkVariableClient variable_source 1 in
  issue (call_update_and_wait (client variable_client));;
  issue call_FeedForwardActor;;
  let actor := mkFeedForwardActor network (_evaluator_epsilon self) variable_client in
  issue (call_Counter ("evaluator" +:+ pretty eval_id));;
  let counter := mkCounter counter ("evaluator" +:+ pretty eval_id) in
  issue (call_evaluator_cls eval_id);;
  mret
    {| Acme.max_actor_steps := _max_actor_steps self;
       label := "evaluator" +:+ pretty eval_id;
       environment := environment;
       Acme.actor := actor;
       Acme.counter := counter;
       eval_id := eval_id |}.

(** The line [epsilons = np.flip(np.logspace(1, 8, num_actors, base=0.4), axis=0)]
    of [build]. *)
Definition epsilons (self : DistributedDQN) : result (list Np.power) :=
  match Np.logspace 1 8 (_num_actors self) 0.4 with
  | Ok a => Ok (Np.flip a)
  | Raise e => Raise e
  end.

(** The statements of [DistributedDQN.build] after the program is created. *)
Definition build_body (self : DistributedDQN) : M Program unit :=
  replay ← group "replay" (add_node (ReverbNode m_replay));
  counter ← group "counter" (add_node (CourierNode m_counter []));
  learner ← group "learner"
    (add_node (CourierNode m_learner [Handle replay; Handle counter]));
  group "evaluator"
    (for_each (range (_num_evaluators self)) (fun i =>
       add_node (CourierNode m_evaluator [Handle learner; Handle counter; Int i]);;
       mret tt));;
  epsilons ← lift (epsilons self);
  sources ← group "cacher"
    (for_fold (range (_num_caches self)) [] (fun _ sources =>
       cacher ← add_node (CacherNode learner 2000 4000);
       mret (sources ++ [cacher])));
  group "actor"
    (for_each (enumerate epsilons) (fun '(actor_id, epsilon) =>
       k ← mod_ actor_id (length sources);
       source ← getitem sources k;
       add_node
         (CourierNode m_actor
            [Handle replay; Handle source; Handle counter; Float epsilon]);;
       mret tt)).

(** [DistributedDQN.build]: the program is returned unless a statement
    raised. *)
Definition build (self : DistributedDQN) (name : string) : result Program :=
  match build_body self (new_program name) with
  | (Ok _, program) => Ok program
  | (Raise e, _) => Raise e
  end.

(** The actor nodes of a program in the order they were added, which is
    the order of the actor ids. *)
Definition actor_nodes (p : Program) : list node := group_nodes p "actor".

(** The variable source an actor or evaluator node is given. *)
Definition variable_source_of (n : node) : option handle :=
  match n with
  | CourierNode m_actor [Handle _; Handle source; Handle _; Float _] => Some source
  | CourierNode m_evaluator [Handle source; Handle _; Int _] => Some source
  | _ => None
  end.

(** The epsilon an actor node is given. *)
Definition epsilon_of (n : node) : option Np.power :=
  match n with
  | CourierNode m_actor [Handle _; Handle _; Handle _; Float epsilon] => Some epsilon
  | _ => None
  end.

(** The handles of the cacher nodes, in the order they were added. *)
Definition cachers (p : Program) : list handle := group_handles p "cacher".

(** The node of actor [i] when the first cacher has handle [first] and
    there are [caches] of them: replay is node 0 and the counter node 1. *)
Definition actor_node (first : handle) (caches : nat) (i : nat) (e : Np.power)
  : node :=
  CourierNode m_actor
    [Handle 0%nat; Handle (first + i mod caches)%nat; Handle 1%nat; Float e].

(** The program [build] is shown to return for the epsilons [eps]: replay,
    counter and learner, then the evaluators, the cachers and the actors. *)
Definition topology (self : DistributedDQN) (name : string)
    (eps : list Np.power) : Program :=
  let first := (3 + Z.to_nat (_num_evaluators self))%nat in
  let caches := Z.to_nat (_num_caches self) in
  {| Lp.name := name;
     nodes :=
       labelled "replay" [ReverbNode m_replay] ++
       labelled "counter" [CourierNode m_counter []] ++
       labelled "learner" [CourierNode m_learner [Handle 0%nat; Handle 1%nat]] ++
       labelled "evaluator"
         ((fun i => CourierNode m_evaluator [Handle 2%nat; Handle 1%nat; Int i])
            <$> range (_num_evaluators self)) ++
       labelled "cacher" (replicate caches (CacherNode 2%nat 2000 4000)) ++
       labelled "actor" (imap (actor_node first caches) eps);
     current_group := None |}.

(** How many actor nodes read their variables from [source]. *)
Definition load (p : Program) (source : handle) : nat :=
  length (filter (fun n => variable_source_of n = Some source) (actor_nodes p)).

End Agent.

(** ** The counter and learner processes *)

Module Checkpointed.

(** [tf2_savers.CheckpointingRunner(wrapped, ...)] *)
Record CheckpointingRunner (W : Type) : Type := mkRunner {
  wrapped : W;
  time_delta_minutes : Z;
  subdirectory : string;
  max_to_keep : Z
}.
Arguments mkRunner {W}.
Arguments wrapped {W}.
Arguments time_delta_minutes {W}.
Arguments subdirectory {W}.
Arguments max_to_keep {W}.

(** [counting.Counter()]: the counter that has no parent. *)
Inductive RootCounter : Set :=
| mkRootCounter.

(** [datasets.make_reverb_dataset(server_address=..., batch_size=...,
    prefetch_size=...)]; the address of a replay client is its handle. *)
Record Dataset : Set := mkDataset {
  server_address : Acme.handle;
  dataset_batch_size : Z;
  dataset_prefetch_size : Z
}.

(** [loggers.make_default_logger(label, steps_key=...)] *)
Record StepsLogger : Set := mkStepsLogger {
  steps_label : string;
  steps_key : string
}.

(** What [learning.RainbowDQNLearner(...)] is called with.  The target
    network is [copy.deepcopy(network)]: a network of the same
    description. *)
Record RainbowDQNLearner : Set := mkLearner {
  network : Acme.Network;
  target_network : Acme.Network;
  discount : float;
  importance_sampling_exponent : float;
  learning_rate : float;
  target_update_period : Z;
  dataset : Dataset;
  replay_client : Acme.handle;
  counter_ : Acme.Counter;
  logger : StepsLogger
}.

(** The calls of the counter and learner constructors: those of
    [Acme.call], and the ones only these two make. *)
Inductive call : Set :=
| shared (c : Acme.call)
| call_deepcopy
| call_TFClient (server_address : Acme.handle)
| call_make_reverb_dataset (server_address : Acme.handle)
                           (batch_size prefetch_size : Z)
| call_RainbowDQNLearner
| call_root_Counter
| call_CheckpointingRunner (subdirectory : string).

Definition trace : Set := list call.

Definition issue (c : call) : M trace unit := modify (fun t => t ++ [c]).

(** [DistributedDQN.counter] *)
Definition counter (self : Agent.DistributedDQN)
  : M trace (CheckpointingRunner RootCounter) :=
  issue call_root_Counter;;
  issue (call_CheckpointingRunner "counter");;
  mret (mkRunner mkRootCounter 1 "counter" 2).

(** [DistributedDQN.learner] *)
Definition learner (self : Agent.DistributedDQN) (replay counter : Acme.handle)
  : M trace (CheckpointingRunner RainbowDQNLearner) :=
  issue (shared Acme.call_network_factory);;
  let network := Acme.Net (Agent._env_spec self) in
  issue call_deepcopy;;
  let target_network := network in
  issue (shared Acme.call_create_variables);;
  issue (shared Acme.call_create_variables);;
  issue (call_TFClient replay);;
  let replay_client := replay in
  issue (call_make_reverb_dataset replay (Agent._batch_size self)
           (Agent._prefetch_size self));;
  let dataset :=
    mkDataset replay (Agent._batch_size self) (Agent._prefetch_size self) in
  issue (shared (Acme.call_make_default_logger "learner"));;
  let logger := mkStepsLogger "learner" "learner_steps" in
  issue (shared (Acme.call_Counter "learner"));;
  let counter := Acme.mkCounter counter "learner" in
  issue call_RainbowDQNLearner;;
  let learner :=
    {| network := network;
       target_network := target_network;
       discount := Agent._discount self;
       importance_sampling_exponent := Agent._importance_sampling_exponent self;
       learning_rate := Agent._learning_rate self;
       target_update_period := Agent._target_update_period self;
       dataset := dataset;
       replay_client := replay_client;
       counter_ := counter;
       logger := logger |} in
  issue (call_CheckpointingRunner "dqn_learner");;
  mret (mkRunner learner 60 "dqn_learner" 2).

(** The variants requested from the environment factory by a counter or
    learner constructor, in order. *)
Definition factory_requests (t : trace) : list bool :=
  omap (fun c => match c with
                 | shared (Acme.call_environment_factory b) => Some b
                 | _ => None
                 end) t.

End Checkpointed.

(** ** What the nodes of a program are wired to *)

Module Wiring.

Import Acme Lp.

(** What a node serves to the nodes that hold its handle: the replay
    server, the counter, variables (the learner and its caches), or
    nothing (actors and evaluators). *)
Inductive kind : Set :=
| Replay
| CounterService
| VariableSource
| Worker.

Definition kind_of (n : node) : kind :=
  match n with
  | ReverbNode _ => Replay
  | CourierNode m_counter _ => CounterService
  | CourierNode m_learner _ => VariableSource
  | CacherNode _ _ _ => VariableSource
  | CourierNode _ _ => Worker
  end.

Definition kind_eqb (k1 k2 : kind) : bool :=
  match k1, k2 with
  | Replay, Replay
  | CounterService, CounterService
  | VariableSource, VariableSource
  | Worker, Worker => true
  | _, _ => false
  end.

(** A parameter of a method of the agent, after [self]. *)
Inductive parameter : Set :=
| client (k : kind)
| a_float
| an_int.

(** The signatures of the methods: [learner(replay, counter)],
    [actor(replay, variable_source, counter, epsilon)],
    [evaluator(variable_source, counter, eval_id)]; [replay] and
    [counter] take nothing. *)
Definition parameters (m : method) : list parameter :=
  match m with
  | m_replay => []
  | m_counter => []
  | m_learner => [client Replay; client CounterService]
  | m_actor => [client Replay; client VariableSource; client CounterService; a_float]
  | m_evaluator => [client VariableSource; client CounterService; an_int]
  end.

(** Whether an argument of a node fits a parameter: a handle must refer
    to a node of the program that serves what the parameter expects. *)
Definition accepts (p : Program) (pa : parameter) (a : arg) : bool :=
  match pa, a with
  | client k, Handle h =>
      match node_of p h with
      | Some n => kind_eqb (kind_of n) k
      | None => false
      end
  | a_float, Float _ => true
  | an_int, Int _ => true
  | _, _ => false
  end.

Fixpoint accepts_all (p : Program) (ps : list parameter) (args : list arg)
  : bool :=
  match ps, args with
  | [], [] => true
  | pa :: ps', a :: args' => accepts p pa a && accepts_all p ps' args'
  | _, _ => false
  end.

Definition well_wired_node (p : Program) (n : node) : bool :=
  match n with
  | ReverbNode m_replay => true
  | ReverbNode _ => false
  | CourierNode m args => accepts_all p (parameters m) args
  | CacherNode source _ _ => accepts p (client VariableSource) (Handle source)
  end.

(** Every node is given arguments that fit the method it runs. *)
Definition well_wired (p : Program) : bool :=
  forallb (fun gn => well_wired_node p (snd gn)) (nodes p).

(** The handles a node holds. *)
Definition handles_of (n : node) : list handle :=
  match n with
  | ReverbNode _ => []
  | CourierNode _ args =>
      omap (fun a => match a with Handle h => Some h | _ => None end) args
  | CacherNode source _ _ => [source]
  end.

(** The id an evaluator node is given. *)
Definition eval_id_of (n : node) : option Z :=
  match n with
  | CourierNode m_evaluator [Handle _; Handle _; Int i] => Some i
  | _ => None
  end.

End Wiring.

Import Acme Lp Agent.

(** * Properties *)

(** ** The replay table *)

(** C1: for every configuration, [replay] builds its rate limiter by cases
    on [samples_per_insert]: when it is truthy, a [SampleToInsertRatio]
    limiter whose [min_size_to_sample] is [min_replay_size] and whose
    ratio is the given [samples_per_insert]; when it is falsy, a pure
    [MinSize] limiter over [min_replay_size], which carries no ratio. *)
Theorem replay_limiter_by_cases (self : DistributedDQN) :
  exists table,
    replay self = [table] /\
    Reverb.rate_limiter table =
      if truthy (_samples_per_insert self)
      then Reverb.SampleToInsertRatio
             (_min_replay_size self) (_samples_per_insert self) (_batch_size self)
      else Reverb.MinSize (_min_replay_size self).
Proof.
  eexists. split; [reflexivity |]. reflexivity.
Qed.

(** C10: whenever [samples_per_insert] is truthy, the limiter built by
    [replay] is a [SampleToInsertRatio] whose [error_buffer] is
    [batch_size]. *)
Theorem replay_error_buffer_is_batch_size (self : DistributedDQN) :
  truthy (_samples_per_insert self) = true ->
  exists table min_size ratio,
    replay self = [table] /\
    Reverb.rate_limiter table =
      Reverb.SampleToInsertRatio min_size ratio (_batch_size self) /\
    Reverb.error_buffer_of (Reverb.rate_limiter table) = Some (_batch_size self).
Proof.
  intros Htruthy. unfold replay. rewrite Htruthy.
  eexists _, _, _. repeat split.
Qed.

Lemma replay_error_buffer_default :
  let self := attributes (default_args 8) (SpecOf (Env false)) in
  exists table min_size ratio,
    replay self = [table] /\
    Reverb.rate_limiter table = Reverb.SampleToInsertRatio min_size ratio 256 /\
    Reverb.error_buffer_of (Reverb.rate_limiter table) = Some 256.
Proof.
  exact (replay_error_buffer_is_batch_size
           (attributes (default_args 8) (SpecOf (Env false))) eq_refl).
Defined.

(** An insert leaves at most [max_size] items, whatever was stored. *)
Lemma insert_length_le {Item} (max_size : Z) (items : list Item) (x : Item) :
  0 <= max_size ->
  Z.of_nat (length (Reverb.insert max_size items x)) <= max_size.
Proof.
  intros Hcap. unfold Reverb.insert. rewrite length_drop, length_app. simpl. lia.
Qed.

Lemma insert_full {Item} (max_size : Z) (items : list Item) (x : Item) :
  items <> [] ->
  Z.of_nat (length items) = max_size ->
  Reverb.insert max_size items x = tail items ++ [x].
Proof.
  intros Hitems Hfull. unfold Reverb.insert. rewrite length_app. simpl.
  replace (length items + 1 - Z.to_nat max_size)%nat with 1%nat by lia.
  destruct items as [| y items]; [contradiction | reflexivity].
Qed.

Lemma insert_room {Item} (max_size : Z) (items : list Item) (x : Item) :
  Z.of_nat (length items) < max_size ->
  Reverb.insert max_size items x = items ++ [x].
Proof.
  intros Hroom. unfold Reverb.insert. rewrite length_app. simpl.
  replace (length items + 1 - Z.to_nat max_size)%nat with 0%nat by lia.
  reflexivity.
Qed.

(** Where a table exists it never holds more than [max_size] items, and
    the only refusal is [ValueError] for a maximum size below one. *)
Lemma insert_all_bounded {Item} (max_size : Z) (xs : list Item) :
  match Reverb.insert_all max_size xs with
  | Ok items => Z.of_nat (length items) <= max_size
  | Raise e => e = ValueError /\ max_size < 1
  end.
Proof.
  unfold Reverb.insert_all.
  destruct (Z.ltb_spec max_size 1) as [Hnone | Hsome]; [split; [reflexivity | exact Hnone] |].
  assert (Hgen : forall items : list Item,
             Z.of_nat (length items) <= max_size ->
             Z.of_nat (length (fold_left (Reverb.insert max_size) xs items))
             <= max_size).
  { induction xs as [| x xs IH]; intros items Hitems; simpl.
    - exact Hitems.
    - apply IH. apply insert_length_le. lia. }
  apply Hgen. simpl. lia.
Qed.

Lemma weight_nonneg (e p : float) : (0 <= Reverb.weight e p)%R.
Proof.
  unfold Reverb.weight. destruct (Rlt_dec 0 (float_to_R p)).
  - left. apply exp_pos.
  - right. reflexivity.
Qed.

Lemma weight_positive (e p : float) :
  (0 < float_to_R p)%R ->
  Reverb.weight e p = Rpower (float_to_R p) (float_to_R e) /\
  (0 < Reverb.weight e p)%R.
Proof.
  intros Hp. unfold Reverb.weight.
  destruct (Rlt_dec 0 (float_to_R p)); [| contradiction].
  split; [reflexivity | apply exp_pos].
Qed.

Lemma weight_zero (e p : float) :
  float_to_R p = 0%R -> Reverb.weight e p = 0%R.
Proof.
  intros Hp. unfold Reverb.weight. rewrite Hp.
  destruct (Rlt_dec 0 0) as [Habs |]; [exfalso; Lra.lra | reflexivity].
Qed.

Lemma total_weight_nonneg (e : float) (ps : list float) :
  (0 <= Reverb.total_weight e ps)%R.
Proof.
  unfold Reverb.total_weight. induction ps as [| p ps IH].
  - right. reflexivity.
  - rewrite fmap_cons. cbn [foldr]. pose proof (weight_nonneg e p). Lra.lra.
Qed.

Lemma total_weight_ge (e : float) (ps : list float) (i : nat) (p : float) :
  ps !! i = Some p -> (Reverb.weight e p <= Reverb.total_weight e ps)%R.
Proof.
  revert i. induction ps as [| q ps IH]; intros i Hi; [discriminate |].
  pose proof (total_weight_nonneg e ps) as Hrest.
  pose proof (weight_nonneg e q) as Hq.
  unfold Reverb.total_weight in *. rewrite fmap_cons. cbn [foldr].
  destruct i as [| i]; simpl in Hi.
  - injection Hi as ->. Lra.lra.
  - specialize (IH i Hi). Lra.lra.
Qed.

Lemma total_weight_all_zero (e : float) (ps : list float) :
  (forall p, p ∈ ps -> float_to_R p = 0%R) -> Reverb.total_weight e ps = 0%R.
Proof.
  unfold Reverb.total_weight. induction ps as [| p ps IH]; intros Hall.
  - reflexivity.
  - rewrite fmap_cons. cbn [foldr].
    rewrite (weight_zero e p) by (apply Hall; apply list_elem_of_here).
    rewrite IH; [Lra.lra |].
    intros q Hq. apply Hall. apply list_elem_of_further. exact Hq.
Qed.

(** C2: for every configuration, the single table built by [replay] has
    maximum size [max_replay_size], so wherever that table exists it
    holds at most [max_replay_size] items after any sequence of inserts
    (a maximum size below one is refused, and then there is no table);
    its remover is [Fifo], so an insert into a full table drops the
    oldest item and an insert below capacity drops nothing; its sampler
    is [Prioritized] with exponent [priority_exponent], so the
    probabilities of drawing two items are in the ratio of their
    priorities raised to [priority_exponent], and an item of priority 0
    is not drawn unless every priority is 0. *)
Theorem replay_table_bounded_fifo_prioritized (self : DistributedDQN) :
  exists table,
    replay self = [table] /\
    Reverb.max_size table = _max_replay_size self /\
    Reverb.remover table = Reverb.Fifo /\
    Reverb.sampler table = Reverb.Prioritized (_priority_exponent self) /\
    (forall xs : list Transition,
        match Reverb.insert_all (Reverb.max_size table) xs with
        | Ok items => Z.of_nat (length items) <= _max_replay_size self
        | Raise e => e = ValueError /\ _max_replay_size self < 1
        end) /\
    (forall (items : list Transition) (x : Transition),
        items <> [] ->
        Z.of_nat (length items) = Reverb.max_size table ->
        Reverb.insert (Reverb.max_size table) items x = tail items ++ [x]) /\
    (forall (items : list Transition) (x : Transition),
        Z.of_nat (length items) < Reverb.max_size table ->
        Reverb.insert (Reverb.max_size table) items x = items ++ [x]) /\
    (forall (priorities : list float) (i j : nat) (pi pj : float),
        priorities !! i = Some pi -> priorities !! j = Some pj ->
        (0 < float_to_R pi)%R -> (0 < float_to_R pj)%R ->
        (Reverb.selection_probability (Reverb.sampler table) priorities i
         * Rpower (float_to_R pj) (float_to_R (_priority_exponent self))
         = Reverb.selection_probability (Reverb.sampler table) priorities j
           * Rpower (float_to_R pi) (float_to_R (_priority_exponent self)))%R) /\
    (forall (priorities : list float) (i j : nat) (pi pj : float),
        priorities !! i = Some pi -> priorities !! j = Some pj ->
        float_to_R pi = 0%R -> (0 < float_to_R pj)%R ->
        Reverb.selection_probability (Reverb.sampler table) priorities i = 0%R) /\
    (forall (priorities : list float) (i : nat) (pi : float),
        priorities !! i = Some pi ->
        (forall p, p ∈ priorities -> float_to_R p = 0%R) ->
        (0 < Reverb.selection_probability (Reverb.sampler table) priorities i)%R).
Proof.
  eexists. split; [reflexivity |]. cbn [Reverb.max_size Reverb.remover Reverb.sampler].
  split; [reflexivity |]. split; [reflexivity |]. split; [reflexivity |].
  split; [intros xs; apply insert_all_bounded |].
  split; [intros items x; apply insert_full |].
  split; [intros items x; apply insert_room |].
  split; [| split].
  - intros priorities i j pi pj Hi Hj Hpi Hpj.
    unfold Reverb.selection_probability. rewrite Hi, Hj.
    destruct (weight_positive (_priority_exponent self) pi Hpi) as [Hwi Hposi].
    destruct (weight_positive (_priority_exponent self) pj Hpj) as [Hwj _].
    pose proof (total_weight_ge (_priority_exponent self) priorities i pi Hi).
    destruct (Rlt_dec 0 (Reverb.total_weight (_priority_exponent self) priorities))
      as [_ | Hnot]; [| exfalso; Lra.lra].
    rewrite Hwi, Hwj. unfold Rdiv. ring.
  - intros priorities i j pi pj Hi Hj Hpi Hpj.
    unfold Reverb.selection_probability. rewrite Hi.
    destruct (weight_positive (_priority_exponent self) pj Hpj) as [_ Hposj].
    pose proof (total_weight_ge (_priority_exponent self) priorities j pj Hj).
    destruct (Rlt_dec 0 (Reverb.total_weight (_priority_exponent self) priorities))
      as [_ | Hnot]; [| exfalso; Lra.lra].
    rewrite (weight_zero _ pi Hpi). unfold Rdiv. ring.
  - intros priorities i pi Hi Hall.
    unfold Reverb.selection_probability. rewrite Hi.
    rewrite (total_weight_all_zero _ priorities Hall).
    destruct (Rlt_dec 0 0) as [Habs | _]; [exfalso; Lra.lra |].
    assert (Hlen : (0 < length priorities)%nat)
      by (apply lookup_lt_Some in Hi; lia).
    apply lt_0_INR in Hlen.
    unfold Rdiv. rewrite Rmult_1_l. apply Rinv_0_lt_compat. exact Hlen.
Qed.

(** ** The constructor *)

(** C9: the constructor succeeds only when [num_caches >= 1].  For every
    [num_caches < 1] it raises [AssertionError] before any other work (no
    call has been issued: the trace is unchanged); for every
    [num_caches >= 1] the assertion passes and the instance is built. *)
Theorem init_asserts_a_cache (a : Args) (t : trace) :
  (num_caches a < 1 -> __init__ a t = (Raise AssertionError, t)) /\
  (1 <= num_caches a ->
   exists environment_spec t',
     __init__ a t = (Ok (attributes a environment_spec), t') /\
     _num_caches (attributes a environment_spec) = num_caches a).
Proof.
  unfold __init__, assert, mbind, M_bind, Py.bind. split; intros Hcaches.
  - destruct (Z.leb_spec 1 (num_caches a)); [lia | reflexivity].
  - destruct (Z.leb_spec 1 (num_caches a)); [| lia].
    simpl. destruct (environment_spec a) as [spec |]; simpl.
    + eexists _, _. split; reflexivity.
    + eexists _, _. split; reflexivity.
Qed.

Lemma init_asserts_a_cache_examples :
  __init__ (with_num_caches 0 (default_args 8)) [] = (Raise AssertionError, []) /\
  exists environment_spec t',
    __init__ (default_args 8) [] = (Ok (attributes (default_args 8) environment_spec), t') /\
    _num_caches (attributes (default_args 8) environment_spec) = 1.
Proof.
  split.
  - apply (proj1 (init_asserts_a_cache (with_num_caches 0 (default_args 8)) [])).
    simpl. lia.
  - apply (proj2 (init_asserts_a_cache (default_args 8) [])).
    simpl. lia.
Defined.

(** ** Actors and evaluators *)

Lemma actor_calls self replay variable_source counter epsilon t :
  exists loop,
    actor self replay variable_source counter epsilon t =
      (Ok loop,
       t ++ [call_environment_factory false; call_network_factory;
             call_create_variables;
             call_VariableClient variable_source (_variable_update_period self);
             call_update_and_wait variable_source;
             call_NStepTransitionAdder; call_Counter "actor";
             call_AtariEpsilonSchedule;
             call_FeedForwardActorWithEpsilonSchedule;
             call_make_default_logger "actor"; call_EnvironmentLoop]) /\
    priority_fns (adder (loop_actor loop)) =
      {[ DEFAULT_PRIORITY_TABLE := fun _ => _default_priority self ]}.
Proof.
  eexists. split.
  - unfold actor, issue, modify, mbind, M_bind, Py.bind, mret, M_ret, Py.ret.
    rewrite <- !app_assoc. reflexivity.
  - reflexivity.
Qed.

Lemma evaluator_calls self variable_source counter eval_id t :
  exists loop,
    evaluator self variable_source counter eval_id t =
      (Ok loop,
       t ++ [call_environment_factory (0 <? eval_id); call_network_factory;
             call_Sequential; call_create_variables;
             call_VariableClient variable_source 1;
             call_update_and_wait variable_source;
             call_FeedForwardActor;
             call_Counter ("evaluator" +:+ pretty eval_id);
             call_evaluator_cls eval_id]) /\
    environment loop = Env (0 <? eval_id).
Proof.
  eexists. split.
  - unfold evaluator, issue, modify, mbind, M_bind, Py.bind, mret, M_ret, Py.ret.
    rewrite <- !app_assoc. reflexivity.
  - reflexivity.
Qed.

(** C8: the priority function that [actor] attaches to its adder for the
    default priority table returns [default_priority] whatever the
    transition; so the priorities attached to any transition the actor
    inserts are [default_priority] for that table, and nothing else. *)
Theorem actor_priority_is_default
    (self : DistributedDQN) (replay variable_source counter : handle)
    (epsilon : Np.power) (t : trace) :
  exists loop priority_fn,
    fst (actor self replay variable_source counter epsilon t) = Ok loop /\
    priority_fns (adder (loop_actor loop)) !! DEFAULT_PRIORITY_TABLE
      = Some priority_fn /\
    (forall x : Transition, priority_fn x = _default_priority self) /\
    (forall x : Transition,
        calculate_priorities (adder (loop_actor loop)) x
        = {[ DEFAULT_PRIORITY_TABLE := _default_priority self ]}).
Proof.
  destruct (actor_calls self replay variable_source counter epsilon t)
    as (loop & Hrun & Hfns).
  exists loop, (fun _ => _default_priority self).
  rewrite Hrun. split; [reflexivity |].
  unfold calculate_priorities. rewrite Hfns. split; [| split].
  - apply lookup_singleton_eq.
  - reflexivity.
  - intros x. rewrite map_fmap_singleton. reflexivity.
Qed.

(** C6: the evaluator with [eval_id = 0] calls the environment factory
    with [False], and every evaluator with [eval_id > 0] calls it with
    [True]; that single call yields the environment of its loop. *)
Theorem evaluator_environment_variant
    (self : DistributedDQN) (variable_source counter : handle) (eval_id : Z) :
  (eval_id = 0 ->
   exists loop t,
     evaluator self variable_source counter eval_id [] = (Ok loop, t) /\
     factory_requests t = [false] /\
     environment loop = Env false) /\
  (0 < eval_id ->
   exists loop t,
     evaluator self variable_source counter eval_id [] = (Ok loop, t) /\
     factory_requests t = [true] /\
     environment loop = Env true).
Proof.
  destruct (evaluator_calls self variable_source counter eval_id [])
    as (loop & Hrun & Henv).
  split; intros Hid.
  - exists loop. eexists. split; [exact Hrun |].
    rewrite Henv. subst eval_id. split; reflexivity.
  - exists loop. eexists. split; [exact Hrun |].
    rewrite Henv. destruct (Z.ltb_spec 0 eval_id); [| lia].
    split; reflexivity.
Qed.

Lemma evaluator_environment_variant_examples :
  let self := attributes (default_args 8) (SpecOf (Env false)) in
  (exists loop t,
      evaluator self 2%nat 1%nat 0 [] = (Ok loop, t) /\
      factory_requests t = [false] /\ environment loop = Env false) /\
  (exists loop t,
      evaluator self 2%nat 1%nat 3 [] = (Ok loop, t) /\
      factory_requests t = [true] /\ environment loop = Env true).
Proof.
  split.
  - apply (proj1 (evaluator_environment_variant
                    (attributes (default_args 8) (SpecOf (Env false)))
                    2%nat 1%nat 0)).
    reflexivity.
  - apply (proj2 (evaluator_environment_variant
                    (attributes (default_args 8) (SpecOf (Env false)))
                    2%nat 1%nat 3)).
    lia.
Defined.

(** *** The first parameter fetch *)

Lemma fetched_first_sound (source : handle) (t : trace) :
  fetched_first source t = true -> fetch_precedes source t.
Proof.
  induction t as [| c0 t IH]; intros Hcheck pre c post Hsplit Hc.
  - destruct pre; discriminate.
  - destruct pre as [| c1 pre]; simpl in Hsplit; injection Hsplit as -> ->.
    + exfalso. simpl in Hcheck. destruct c; simpl in Hc, Hcheck; discriminate.
    + simpl in Hcheck.
      assert (Hhead : c1 = call_update_and_wait source \/
                      fetched_first source (pre ++ c :: post) = true).
      { destruct c1 as [b | | | | cl up | h | | s | | | l | | | | i | |];
          try discriminate; try (apply andb_prop in Hcheck; tauto).
        destruct (Nat.eqb_spec h source) as [Heq | Hne];
          [left; congruence | right; exact Hcheck]. }
      destruct Hhead as [-> | Hrest].
      * apply list_elem_of_here.
      * apply list_elem_of_further. eapply IH; eauto.
Qed.

Lemma fetched_first_app (source : handle) (t1 t2 : trace) :
  fetched_first source t1 = true ->
  call_update_and_wait source ∈ t1 ->
  fetched_first source (t1 ++ t2) = true.
Proof.
  induction t1 as [| c t1 IH]; intros Hcheck Hin.
  - apply elem_of_nil in Hin. contradiction.
  - simpl in *. destruct c as [b | | | | cl up | h | | s | | | l | | | | i | |];
      try discriminate;
      try (apply andb_prop in Hcheck as [Hc Hrest]; rewrite Hc; simpl;
           apply IH; [exact Hrest |];
           apply elem_of_cons in Hin as [Heq | Hin]; [discriminate | exact Hin]).
    destruct (Nat.eqb_spec h source) as [Heq | Hne]; [reflexivity |].
    apply IH; [exact Hcheck |].
    apply elem_of_cons in Hin as [Heq | Hin]; [congruence | exact Hin].
Qed.

Lemma for_each_issue (cs : list call) (t : trace) :
  for_each cs issue t = (Ok tt, t ++ cs).
Proof.
  revert t. induction cs as [| c cs IH]; intros t; simpl.
  - rewrite app_nil_r. reflexivity.
  - unfold Py.bind, issue, modify at 1. rewrite IH, <- app_assoc. reflexivity.
Qed.

Lemma process_trace {Loop} (construct : M trace Loop) (loop : Loop)
    (calls : trace) (actions : list call) :
  construct [] = (Ok loop, calls) ->
  process construct actions [] =
    (Ok tt, calls ++ filter (fun c => is_environment_action c) actions).
Proof.
  intros Hconstruct. unfold process, mbind, M_bind, Py.bind.
  rewrite Hconstruct. unfold run_loop. apply for_each_issue.
Qed.

(** C5: every actor and every evaluator issues the blocking fetch
    [update_and_wait], on a variable client of its own variable source,
    before it creates its environment loop; so in the whole life of the
    process, constructor and then running loop, no environment action is
    taken before that fetch has returned. *)
Theorem fetch_before_environment_loop
    (self : DistributedDQN) (replay variable_source counter : handle)
    (epsilon : Np.power) (eval_id : Z) (actions : list call) :
  let actor_run :=
    process (actor self replay variable_source counter epsilon) actions [] in
  let evaluator_run :=
    process (evaluator self variable_source counter eval_id) actions [] in
  (fst actor_run = Ok tt /\
   call_EnvironmentLoop ∈ snd actor_run /\
   fetch_precedes variable_source (snd actor_run)) /\
  (fst evaluator_run = Ok tt /\
   call_evaluator_cls eval_id ∈ snd evaluator_run /\
   fetch_precedes variable_source (snd evaluator_run)).
Proof.
  destruct (actor_calls self replay variable_source counter epsilon [])
    as (aloop & Hactor & _).
  destruct (evaluator_calls self variable_source counter eval_id [])
    as (eloop & Hevaluator & _).
  simpl. split.
  - rewrite (process_trace _ _ _ actions Hactor). simpl.
    split; [reflexivity |]. split.
    + repeat (apply list_elem_of_here || apply list_elem_of_further).
    + apply fetched_first_sound.
      apply (fetched_first_app variable_source
               [call_environment_factory false; call_network_factory;
                call_create_variables;
                call_VariableClient variable_source (_variable_update_period self);
                call_update_and_wait variable_source;
                call_NStepTransitionAdder; call_Counter "actor";
                call_AtariEpsilonSchedule;
                call_FeedForwardActorWithEpsilonSchedule;
                call_make_default_logger "actor"; call_EnvironmentLoop]).
      * simpl. rewrite Nat.eqb_refl. reflexivity.
      * repeat (apply list_elem_of_here || apply list_elem_of_further).
  - rewrite (process_trace _ _ _ actions Hevaluator). simpl.
    split; [reflexivity |]. split.
    + repeat (apply list_elem_of_here || apply list_elem_of_further).
    + apply fetched_first_sound.
      apply (fetched_first_app variable_source
               [call_environment_factory (0 <? eval_id); call_network_factory;
                call_Sequential; call_create_variables;
                call_VariableClient variable_source 1;
                call_update_and_wait variable_source;
                call_FeedForwardActor;
                call_Counter ("evaluator" +:+ pretty eval_id);
                call_evaluator_cls eval_id]).
      * simpl. rewrite Nat.eqb_refl. reflexivity.
      * repeat (apply list_elem_of_here || apply list_elem_of_further).
Qed.

(** ** The epsilon schedule *)

Lemma linspace_samples (start stop : Q) (num : Z) :
  0 <= num ->
  exists ys,
    Np.linspace start stop num = Ok ys /\
    length ys = Z.to_nat num /\
    forall i y,
      ys !! i = Some y ->
      (y == start
            + inject_Z (Z.of_nat i) * ((stop - start) / inject_Z (num - 1)))%Q.
Proof.
  intros Hnum. unfold Np.linspace, Np.arange.
  destruct (Z.ltb_spec num 0) as [| _]; [lia |].
  eexists. split; [reflexivity |]. split.
  - destruct (1 <? num), (0 <? num - 1);
      rewrite ?length_insert, !length_fmap, length_seq; reflexivity.
  - intros i y Hy. destruct (Z.ltb_spec 1 num) as [Hmany | Hfew].
    + destruct (Z.ltb_spec 0 (num - 1)) as [_ |]; [| lia].
      rewrite !length_fmap, length_seq in Hy.
      apply list_lookup_insert_Some in Hy as [(Hlast & <- & _) | (_ & Hy)].
      * subst i.
        replace (Z.of_nat (Init.Nat.pred (Z.to_nat num))) with (num - 1) by lia.
        rewrite Qmult_div_r; [ring |].
        intros Hzero. unfold Qeq in Hzero. simpl in Hzero. lia.
      * rewrite !list_lookup_fmap in Hy.
        destruct (seq 0 (Z.to_nat num) !! i) as [k |] eqn:Hk; [| discriminate].
        apply lookup_seq in Hk as [-> _]. simpl in Hy. injection Hy as <-.
        ring.
    + destruct (Z.ltb_spec 0 (num - 1)); [lia |].
      rewrite !list_lookup_fmap in Hy.
      destruct (seq 0 (Z.to_nat num) !! i) as [k |] eqn:Hk; [| discriminate].
      apply lookup_seq in Hk as [-> Hi]. simpl in Hy. injection Hy as <-.
      assert (i = 0%nat) as -> by lia. simpl. ring.
Qed.

(** The exponent of the epsilon of actor [i] among [num] actors. *)
Lemma epsilons_samples (self : DistributedDQN) :
  0 <= _num_actors self ->
  exists eps,
    epsilons self = Ok eps /\
    length eps = Z.to_nat (_num_actors self) /\
    forall i e,
      eps !! i = Some e ->
      Np.base e = 0.4%Q /\
      (Np.exponent e ==
         1 + inject_Z (_num_actors self - 1 - Z.of_nat i)
             * (7 / inject_Z (_num_actors self - 1)))%Q.
Proof.
  intros Hnum.
  destruct (linspace_samples 1 8 (_num_actors self) Hnum)
    as (ys & Hys & Hlen & Hlook).
  unfold epsilons, Np.logspace. rewrite Hys.
  eexists. split; [reflexivity |]. split.
  - unfold Np.flip. rewrite length_reverse, length_fmap. exact Hlen.
  - intros i e He. unfold Np.flip in He.
    apply reverse_lookup_Some in He as [He Hi].
    rewrite length_fmap in He, Hi. rewrite list_lookup_fmap in He.
    destruct (ys !! (length ys - S i)%nat) as [y |] eqn:Hy; [| discriminate].
    simpl in He. injection He as <-. simpl. split; [reflexivity |].
    rewrite (Hlook _ _ Hy).
    replace (Z.of_nat (length ys - S i)) with (_num_actors self - 1 - Z.of_nat i)
      by lia.
    unfold Qeq. reflexivity.
Qed.

Lemma step_positive (m : Z) :
  0 < m -> (0 < 7 / inject_Z m)%Q /\ (inject_Z m * (7 / inject_Z m) == 7)%Q.
Proof.
  intros Hm.
  assert (Hpos : (inject_Z 0 < inject_Z m)%Q) by (rewrite <- Zlt_Qlt; exact Hm).
  change (inject_Z 0) with 0%Q in Hpos.
  split.
  - apply Qlt_shift_div_l; [exact Hpos |]. Lqa.lra.
  - apply Qmult_div_r. intros Hzero. rewrite Hzero in Hpos.
    apply (Qlt_irrefl 0). exact Hpos.
Qed.

Lemma exponent_range (num i : Z) :
  0 <= i < num ->
  (1 <= 1 + inject_Z (num - 1 - i) * (7 / inject_Z (num - 1)) <= 8)%Q.
Proof.
  intros Hi.
  assert (Hk0 : (inject_Z 0 <= inject_Z (num - 1 - i))%Q)
    by (rewrite <- Zle_Qle; lia).
  change (inject_Z 0) with 0%Q in Hk0.
  assert (Hkm : (inject_Z (num - 1 - i) <= inject_Z (num - 1))%Q)
    by (rewrite <- Zle_Qle; lia).
  destruct (Z.eq_dec num 1) as [-> | Hmany].
  - assert (i = 0) as -> by lia.
    change (inject_Z (1 - 1 - 0)) with 0%Q.
    generalize (7 / inject_Z (1 - 1))%Q. intros s. split; Lqa.lra.
  - destruct (step_positive (num - 1)) as [Hstep Hspan]; [lia |].
    revert Hstep Hspan. generalize (7 / inject_Z (num - 1))%Q.
    intros s Hstep Hspan. split; Lqa.nra.
Qed.

Lemma exponent_decreasing (num i j : Z) :
  0 <= i < j -> j < num ->
  (1 + inject_Z (num - 1 - j) * (7 / inject_Z (num - 1))
   < 1 + inject_Z (num - 1 - i) * (7 / inject_Z (num - 1)))%Q.
Proof.
  intros Hij Hj.
  destruct (step_positive (num - 1)) as [Hstep _]; [lia |].
  assert (Hlt : (inject_Z (num - 1 - j) < inject_Z (num - 1 - i))%Q)
    by (rewrite <- Zlt_Qlt; lia).
  revert Hstep. generalize (7 / inject_Z (num - 1))%Q. intros s Hstep.
  Lqa.nra.
Qed.

(** For a base below one, the larger exponent gives the smaller power. *)
Lemma Rpower_antitone (b x y : R) :
  (0 < b)%R -> (b < 1)%R -> (x < y)%R -> (Rpower b y < Rpower b x)%R.
Proof.
  intros Hb0 Hb1 Hxy. unfold Rpower. apply exp_increasing.
  assert (Hln : (ln b < 0)%R).
  { rewrite <- ln_1. apply ln_increasing; assumption. }
  Lra.nra.
Qed.

Lemma Rpower_antitone_le (b x y : R) :
  (0 < b)%R -> (b < 1)%R -> (x <= y)%R -> (Rpower b y <= Rpower b x)%R.
Proof.
  intros Hb0 Hb1 [Hlt | ->].
  - left. apply Rpower_antitone; assumption.
  - right. reflexivity.
Qed.

Lemma base_in_unit_interval : (0 < Q2R 0.4)%R /\ (Q2R 0.4 < 1)%R.
Proof. unfold Q2R. cbn [Qnum Qden]. split; Lra.lra. Qed.

(** The schedule of [build]: one epsilon per actor, [0.4] raised to
    exponents between 1 and 8 that fall in equal steps as the actor id
    grows and reach 1 at the last actor, hence values that rise with the
    actor id. *)
Lemma epsilons_schedule (self : DistributedDQN) :
  1 <= _num_actors self ->
  exists eps,
    epsilons self = Ok eps /\
    length eps = Z.to_nat (_num_actors self) /\
    (forall i e,
        eps !! i = Some e ->
        Np.base e = 0.4%Q /\
        (Np.exponent e ==
           1 + inject_Z (_num_actors self - 1 - Z.of_nat i)
               * (7 / inject_Z (_num_actors self - 1)))%Q) /\
    (forall i j a b,
        (i < j)%nat -> eps !! i = Some a -> eps !! j = Some b ->
        (Np.value a < Np.value b)%R) /\
    (forall i a,
        eps !! i = Some a -> (0.4 ^ 8 <= Np.value a <= 0.4)%R).
Proof.
  intros Hnum.
  destruct (epsilons_samples self) as (eps & Heps & Hlen & Hlook); [lia |].
  destruct base_in_unit_interval as [Hb0 Hb1].
  exists eps. split; [exact Heps |]. split; [exact Hlen |].
  split; [exact Hlook |]. split.
  - intros i j a b Hij Ha Hb.
    assert (Hj : (j < length eps)%nat) by (eapply lookup_lt_Some; exact Hb).
    destruct (Hlook _ _ Ha) as [Hbase_a Hexp_a].
    destruct (Hlook _ _ Hb) as [Hbase_b Hexp_b].
    unfold Np.value. rewrite Hbase_a, Hbase_b.
    rewrite (Qeq_eqR _ _ Hexp_a), (Qeq_eqR _ _ Hexp_b).
    apply Rpower_antitone; [exact Hb0 | exact Hb1 |].
    apply Qlt_Rlt. apply exponent_decreasing; lia.
  - intros i a Ha.
    assert (Hi : (i < length eps)%nat) by (eapply lookup_lt_Some; exact Ha).
    destruct (Hlook _ _ Ha) as [Hbase Hexp].
    destruct (exponent_range (_num_actors self) (Z.of_nat i)) as [Hlow Hhigh];
      [lia |].
    rewrite <- Hexp in Hlow, Hhigh.
    apply Qle_Rle in Hlow, Hhigh.
    unfold Np.value. rewrite Hbase.
    assert (Hlo8 : Rpower (Q2R 0.4) (Q2R 8) = (0.4 ^ 8)%R).
    { replace (Q2R 8) with (INR 8).
      - apply Rpower_pow. exact Hb0.
      - unfold Q2R. cbn [Qnum Qden]. simpl. Lra.lra. }
    assert (Hhi1 : Rpower (Q2R 0.4) (Q2R 1) = 0.4%R).
    { replace (Q2R 1) with 1%R.
      - apply Rpower_1. exact Hb0.
      - unfold Q2R. cbn [Qnum Qden]. Lra.lra. }
    split.
    + rewrite <- Hlo8. apply Rpower_antitone_le; assumption.
    + apply Rle_trans with (Rpower (Q2R 0.4) (Q2R 1)).
      * apply Rpower_antitone_le; assumption.
      * right. exact Hhi1.
Qed.

(** C3, amended: for every [num_actors >= 1], the epsilons generated by
    [build] are one per actor and form a log-spaced sequence ([0.4]
    raised to exponents that change in equal steps with the actor index)
    that is monotonically non-decreasing in actor index order (in fact
    increasing, since [np.flip] reverses the descending powers), and
    every one lies within the bounds [0.4 ^ 8] and [0.4 ^ 1]. *)
Theorem epsilons_log_spaced_nondecreasing (self : DistributedDQN) :
  1 <= _num_actors self ->
  exists eps,
    epsilons self = Ok eps /\
    length eps = Z.to_nat (_num_actors self) /\
    (forall i e,
        eps !! i = Some e ->
        Np.base e = 0.4%Q /\
        (Np.exponent e ==
           1 + inject_Z (_num_actors self - 1 - Z.of_nat i)
               * (7 / inject_Z (_num_actors self - 1)))%Q) /\
    (forall i j a b,
        (i <= j)%nat -> eps !! i = Some a -> eps !! j = Some b ->
        (Np.value a <= Np.value b)%R) /\
    (forall i j a b,
        (i < j)%nat -> eps !! i = Some a -> eps !! j = Some b ->
        (Np.value a < Np.value b)%R) /\
    (forall i a,
        eps !! i = Some a -> (0.4 ^ 8 <= Np.value a <= 0.4)%R).
Proof.
  intros Hnum.
  destruct (epsilons_schedule self Hnum)
    as (eps & Heps & Hlen & Hlook & Hrise & Hbounds).
  exists eps. repeat (split; [assumption |]). split; [| split; assumption].
  intros i j a b Hij Ha Hb.
  destruct (Nat.eq_dec i j) as [-> | Hne].
  - right. congruence.
  - left. apply (Hrise i j); [lia | assumption | assumption].
Qed.

Lemma epsilons_of_eight_actors :
  let self := attributes (default_args 8) (SpecOf (Env false)) in
  exists eps,
    epsilons self = Ok eps /\
    length eps = 8%nat /\
    (forall i e,
        eps !! i = Some e ->
        Np.base e = 0.4%Q /\
        (Np.exponent e == 1 + inject_Z (8 - 1 - Z.of_nat i) * (7 / inject_Z (8 - 1)))%Q) /\
    (forall i j a b,
        (i <= j)%nat -> eps !! i = Some a -> eps !! j = Some b ->
        (Np.value a <= Np.value b)%R) /\
    (forall i j a b,
        (i < j)%nat -> eps !! i = Some a -> eps !! j = Some b ->
        (Np.value a < Np.value b)%R) /\
    (forall i a,
        eps !! i = Some a -> (0.4 ^ 8 <= Np.value a <= 0.4)%R).
Proof.
  apply (epsilons_log_spaced_nondecreasing
           (attributes (default_args 8) (SpecOf (Env false)))).
  simpl. lia.
Defined.

(** C3 as stated fails for two actors: actor 0 is given [0.4 ** 8] and
    actor 1 is given [0.4 ** 1], which is larger; the sequence is not
    non-increasing in actor index order. *)
Lemma epsilons_of_two_actors_rise :
  let self := attributes (default_args 2) (SpecOf (Env false)) in
  epsilons self = Ok [Np.Power 0.4 8; Np.Power 0.4 1] /\
  ~ (Np.value (Np.Power 0.4 1) <= Np.value (Np.Power 0.4 8))%R.
Proof.
  simpl. split; [reflexivity |].
  apply Rlt_not_le.
  destruct (epsilons_schedule (attributes (default_args 2) (SpecOf (Env false))))
    as (eps & Heps & _ & _ & Hrise & _); [simpl; lia |].
  assert (Htwo : epsilons (attributes (default_args 2) (SpecOf (Env false)))
                 = Ok [Np.Power 0.4 8; Np.Power 0.4 1]) by reflexivity.
  rewrite Htwo in Heps. injection Heps as <-.
  apply (Hrise 0%nat 1%nat); [lia | reflexivity | reflexivity].
Qed.

(** ** The topology *)

Lemma bind_run {S A B} (m : M S A) (k : A -> M S B) (s : S) :
  (m ≫= k) s =
    match m s with
    | (Ok a, s') => k a s'
    | (Raise e, s') => (Raise e, s')
    end.
Proof. reflexivity. Qed.

Lemma for_each_cons {S A} (x : A) (xs : list A) (body : A -> M S unit) (s : S) :
  for_each (x :: xs) body s =
    match body x s with
    | (Ok _, s') => for_each xs body s'
    | (Raise e, s') => (Raise e, s')
    end.
Proof. reflexivity. Qed.

Lemma range_length (n : Z) : length (range n) = Z.to_nat n.
Proof. unfold range. rewrite length_fmap, length_seq. reflexivity. Qed.

Lemma group_add_node (label : string) (n : node) (p : Program) :
  group label (add_node n) p =
    (Ok (length (nodes p)),
     {| Lp.name := Lp.name p;
        nodes := nodes p ++ labelled label [n];
        current_group := None |}).
Proof. reflexivity. Qed.

(** A loop that adds one node per element. *)
Lemma for_each_add_node {A} (f : A -> node) (xs : list A) (p : Program) :
  for_each xs (fun x => add_node (f x);; mret tt) p =
    (Ok tt,
     {| Lp.name := Lp.name p;
        nodes := nodes p ++ ((fun x => (current_group p, f x)) <$> xs);
        current_group := current_group p |}).
Proof.
  revert p. induction xs as [| x xs IH]; intros p.
  - simpl. rewrite app_nil_r. destruct p; reflexivity.
  - rewrite for_each_cons, bind_run. unfold add_node at 1, mret, M_ret, Py.ret.
    rewrite IH. simpl. rewrite <- app_assoc. reflexivity.
Qed.

(** The loop that adds the cachers and collects their handles. *)
Lemma for_fold_add_cachers {A} (c : node) (xs : list A) (acc : list handle)
    (p : Program) :
  for_fold xs acc (fun _ sources =>
      cacher ← add_node c; mret (sources ++ [cacher])) p =
    (Ok (acc ++ seq (length (nodes p)) (length xs)),
     {| Lp.name := Lp.name p;
        nodes := nodes p ++ replicate (length xs) (current_group p, c);
        current_group := current_group p |}).
Proof.
  revert acc p. induction xs as [| x xs IH]; intros acc p; simpl.
  - rewrite !app_nil_r. destruct p; reflexivity.
  - unfold Py.bind at 1. rewrite bind_run.
    unfold add_node at 1, mret, M_ret, Py.ret.
    rewrite IH. simpl. rewrite length_app, <- !app_assoc. simpl.
    rewrite Nat.add_1_r. reflexivity.
Qed.

(** The loop that adds the actors, when there is at least one cacher. *)
Lemma for_each_add_actors (first caches : nat) (eps : list Np.power) (a : nat)
    (p : Program) :
  (0 < caches)%nat ->
  for_each (combine (seq a (length eps)) eps) (fun '(actor_id, epsilon) =>
      k ← mod_ actor_id (length (seq first caches));
      source ← getitem (seq first caches) k;
      add_node
        (CourierNode m_actor
           [Handle 0%nat; Handle source; Handle 1%nat; Float epsilon]);;
      mret tt) p =
    (Ok tt,
     {| Lp.name := Lp.name p;
        nodes :=
          nodes p ++
          imap (fun i e => (current_group p, actor_node first caches (a + i) e)) eps;
        current_group := current_group p |}).
Proof.
  intros Hcaches. set (body := fun '(actor_id, epsilon) => _).
  assert (Hbody : forall i e q,
             body (i, e) q =
               (Ok tt,
                {| Lp.name := Lp.name q;
                   nodes := nodes q ++ [(current_group q, actor_node first caches i e)];
                   current_group := current_group q |})).
  { intros i e q. unfold body, mbind, M_bind, Py.bind, mod_.
    rewrite length_seq.
    destruct (Nat.eqb_spec caches 0) as [| _]; [lia |].
    unfold Py.ret at 1, getitem.
    rewrite lookup_seq_lt by (apply Nat.mod_upper_bound; lia).
    reflexivity. }
  clearbody body.
  revert a p. induction eps as [| e eps IH]; intros a p.
  - simpl. rewrite app_nil_r. destruct p; reflexivity.
  - cbn [length seq combine]. rewrite for_each_cons, Hbody, IH.
    cbn [Lp.name nodes current_group imap]. rewrite <- app_assoc. simpl.
    rewrite Nat.add_0_r.
    do 4 f_equal. apply imap_ext. intros i x _. simpl.
    rewrite Nat.add_succ_r. reflexivity.
Qed.

(** Everything [build] does before the actor loop. *)
Lemma build_body_prefix (self : DistributedDQN) (name : string)
    (eps : list Np.power)
    (rest : handle -> handle -> list Np.power -> list handle -> M Program unit) :
  epsilons self = Ok eps ->
  ((replay ← group "replay" (add_node (ReverbNode m_replay));
    counter ← group "counter" (add_node (CourierNode m_counter []));
    learner ← group "learner"
      (add_node (CourierNode m_learner [Handle replay; Handle counter]));
    group "evaluator"
      (for_each (range (_num_evaluators self)) (fun i =>
         add_node (CourierNode m_evaluator [Handle learner; Handle counter; Int i]);;
         mret tt));;
    epsilons ← lift (epsilons self);
    sources ← group "cacher"
      (for_fold (range (_num_caches self)) [] (fun _ sources =>
         cacher ← add_node (CacherNode learner 2000 4000);
         mret (sources ++ [cacher])));
    rest replay counter epsilons sources) : M Program unit) (new_program name) =
  rest 0%nat 1%nat eps
    (seq (3 + Z.to_nat (_num_evaluators self)) (Z.to_nat (_num_caches self)))
    (topology self name []).
Proof.
  intros Heps.
  rewrite bind_run, group_add_node.
  rewrite bind_run, group_add_node.
  rewrite bind_run, group_add_node.
  rewrite bind_run. unfold group at 1. rewrite for_each_add_node.
  rewrite bind_run. unfold lift at 1. rewrite Heps.
  rewrite bind_run. unfold group at 1. rewrite for_fold_add_cachers.
  cbn [nodes new_program set_group length Lp.name current_group app
       labelled fmap list_fmap].
  rewrite length_fmap, !range_length.
  unfold topology, labelled.
  cbn [fmap list_fmap app imap].
  rewrite fmap_replicate, <- list_fmap_compose, app_nil_r.
  reflexivity.
Qed.

Lemma epsilons_negative (self : DistributedDQN) :
  _num_actors self < 0 -> epsilons self = Raise ValueError.
Proof.
  intros Hneg. unfold epsilons, Np.logspace, Np.linspace.
  destruct (Z.ltb_spec (_num_actors self) 0); [reflexivity | lia].
Qed.

(** What [build] returns, for every instance: a negative [num_actors] is
    a [ValueError] of [np.logspace]; without a cacher the first actor
    divides by zero; otherwise the program is [topology]. *)
Lemma build_outcome (self : DistributedDQN) (name : string) :
  (_num_actors self < 0 /\ build self name = Raise ValueError) \/
  (exists eps,
      epsilons self = Ok eps /\
      length eps = Z.to_nat (_num_actors self) /\
      0 <= _num_actors self /\
      ((_num_caches self < 1 /\ 1 <= _num_actors self /\
        build self name = Raise ZeroDivisionError) \/
       ((1 <= _num_caches self \/ _num_actors self = 0) /\
        build self name = Ok (topology self name eps)))).
Proof.
  destruct (Z.lt_ge_cases (_num_actors self) 0) as [Hneg | Hnum].
  - left. split; [exact Hneg |].
    unfold build, build_body.
    rewrite bind_run, group_add_node.
    rewrite bind_run, group_add_node.
    rewrite bind_run, group_add_node.
    rewrite bind_run. unfold group at 1. rewrite for_each_add_node.
    rewrite bind_run. unfold lift at 1.
    rewrite (epsilons_negative self Hneg). reflexivity.
  - right.
    destruct (epsilons_samples self Hnum) as (eps & Heps & Hlen & _).
    exists eps. split; [exact Heps |]. split; [exact Hlen |].
    split; [exact Hnum |].
    pose proof
      (build_body_prefix self name eps
         (fun replay counter epsilons sources =>
            group "actor"
              (for_each (enumerate epsilons) (fun '(actor_id, epsilon) =>
                 k ← mod_ actor_id (length sources);
                 source ← getitem sources k;
                 add_node
                   (CourierNode m_actor
                      [Handle replay; Handle source; Handle counter; Float epsilon]);;
                 mret tt)))
         Heps) as Hprefix.
    cbv beta in Hprefix.
    unfold build, build_body. rewrite Hprefix. clear Hprefix.
    unfold group, enumerate.
    destruct (Z.lt_ge_cases (_num_caches self) 1) as [Hnone | Hsome].
    + replace (Z.to_nat (_num_caches self)) with 0%nat by lia.
      destruct eps as [| e eps].
      * right. split; [right; simpl in Hlen; lia |].
        unfold topology.
        replace (Z.to_nat (_num_caches self)) with 0%nat by lia.
        reflexivity.
      * left. split; [exact Hnone |]. split; [simpl in Hlen; lia |].
        reflexivity.
    + right. split; [left; exact Hsome |].
      rewrite for_each_add_actors by lia.
      unfold topology, labelled.
      cbn [Lp.name nodes current_group set_group fmap list_fmap app imap].
      rewrite fmap_imap, app_nil_r, <- !app_assoc.
      reflexivity.
Qed.

(** *** Reading the groups of a program *)

Lemma group_nodes_labelled (label label' : string) (ns : list node)
    (rest : list (option string * node)) :
  snd <$> filter (fun gn => fst gn = Some label) (labelled label' ns ++ rest) =
    (if decide (label' = label) then ns else [])
    ++ (snd <$> filter (fun gn => fst gn = Some label) rest).
Proof.
  induction ns as [| n ns IH].
  - simpl. destruct (decide (label' = label)); reflexivity.
  - cbn [labelled fmap list_fmap app]. rewrite filter_cons. cbn [fst].
    fold (labelled label' ns). 
    destruct (decide (label' = label)) as [-> | Hne].
    + rewrite decide_True by reflexivity. rewrite fmap_cons, IH. reflexivity.
    + rewrite decide_False by congruence. rewrite IH. reflexivity.
Qed.

Lemma handles_from_labelled (label label' : string) (h : handle)
    (ns : list node) (rest : list (option string * node)) :
  handles_from label h (labelled label' ns ++ rest) =
    (if decide (label' = label) then seq h (length ns) else [])
    ++ handles_from label (h + length ns)%nat rest.
Proof.
  revert h. induction ns as [| n ns IH]; intros h.
  - simpl. rewrite Nat.add_0_r. destruct (decide (label' = label)); reflexivity.
  - cbn [labelled fmap list_fmap app handles_from length seq].
    fold (labelled label' ns). rewrite IH, Nat.add_succ_r.
    destruct (decide (label' = label)) as [-> | Hne].
    + rewrite decide_True by reflexivity. reflexivity.
    + rewrite decide_False by congruence. reflexivity.
Qed.

Ltac read_groups :=
  rewrite ?group_nodes_labelled, ?handles_from_labelled;
  repeat (rewrite decide_False by discriminate);
  repeat (rewrite decide_True by reflexivity);
  cbn [app length Nat.add].

Lemma topology_nodes_closed (self : DistributedDQN) (name : string)
    (eps : list Np.power) :
  nodes (topology self name eps) =
    labelled "replay" [ReverbNode m_replay] ++
    labelled "counter" [CourierNode m_counter []] ++
    labelled "learner" [CourierNode m_learner [Handle 0%nat; Handle 1%nat]] ++
    labelled "evaluator"
      ((fun i => CourierNode m_evaluator [Handle 2%nat; Handle 1%nat; Int i])
         <$> range (_num_evaluators self)) ++
    labelled "cacher"
      (replicate (Z.to_nat (_num_caches self)) (CacherNode 2%nat 2000 4000)) ++
    labelled "actor"
      (imap (actor_node (3 + Z.to_nat (_num_evaluators self))%nat
               (Z.to_nat (_num_caches self))) eps) ++
    [].
Proof. unfold topology. cbn [nodes]. rewrite app_nil_r. reflexivity. Qed.

Lemma topology_actor_nodes (self : DistributedDQN) (name : string)
    (eps : list Np.power) :
  actor_nodes (topology self name eps) =
    imap (actor_node (3 + Z.to_nat (_num_evaluators self))%nat
            (Z.to_nat (_num_caches self))) eps.
Proof.
  unfold actor_nodes, group_nodes. rewrite topology_nodes_closed.
  read_groups. rewrite filter_nil, app_nil_r. reflexivity.
Qed.

Lemma topology_evaluator_nodes (self : DistributedDQN) (name : string)
    (eps : list Np.power) :
  group_nodes (topology self name eps) "evaluator" =
    (fun i => CourierNode m_evaluator [Handle 2%nat; Handle 1%nat; Int i])
      <$> range (_num_evaluators self).
Proof.
  unfold group_nodes. rewrite topology_nodes_closed.
  read_groups. rewrite filter_nil, app_nil_r. reflexivity.
Qed.

Lemma topology_cachers (self : DistributedDQN) (name : string)
    (eps : list Np.power) :
  cachers (topology self name eps) =
    seq (3 + Z.to_nat (_num_evaluators self))%nat (Z.to_nat (_num_caches self)).
Proof.
  unfold cachers, group_handles. rewrite topology_nodes_closed.
  read_groups. rewrite length_fmap, range_length, length_replicate.
  rewrite app_nil_r. reflexivity.
Qed.

Lemma topology_learner (self : DistributedDQN) (name : string)
    (eps : list Np.power) :
  node_of (topology self name eps) 2%nat =
    Some (CourierNode m_learner [Handle 0%nat; Handle 1%nat]).
Proof. reflexivity. Qed.

Lemma topology_cacher_node (self : DistributedDQN) (name : string)
    (eps : list Np.power) (h : handle) :
  h ∈ cachers (topology self name eps) ->
  node_of (topology self name eps) h = Some (CacherNode 2%nat 2000 4000).
Proof.
  rewrite topology_cachers. intros Hh.
  apply list_elem_of_lookup in Hh as [c Hc].
  apply lookup_seq in Hc as [-> Hc].
  unfold node_of. rewrite topology_nodes_closed.
  change (labelled "replay" [ReverbNode m_replay] ++
          labelled "counter" [CourierNode m_counter []] ++
          labelled "learner" [CourierNode m_learner [Handle 0%nat; Handle 1%nat]] ++
          ?rest)
    with ([(Some "replay"%string, ReverbNode m_replay);
           (Some "counter"%string, CourierNode m_counter []);
           (Some "learner"%string,
            CourierNode m_learner [Handle 0%nat; Handle 1%nat])] ++ rest).
  rewrite lookup_app_r by (simpl; lia).
  rewrite lookup_app_r
    by (unfold labelled; rewrite !length_fmap, range_length; simpl; lia).
  unfold labelled at 1. rewrite !length_fmap, range_length.
  rewrite lookup_app_l
    by (unfold labelled; rewrite length_fmap, length_replicate; simpl; lia).
  unfold labelled. rewrite list_lookup_fmap.
  rewrite lookup_replicate_2 by (simpl; lia).
  reflexivity.
Qed.

(** *** Counting the actors of a cacher *)

Lemma mod_count_step (caches c n : nat) :
  (c < caches)%nat ->
  (S n / caches + (if decide (c < S n mod caches) then 1 else 0) =
   n / caches + (if decide (c < n mod caches) then 1 else 0)
   + (if decide (n mod caches = c) then 1 else 0))%nat.
Proof.
  intros Hc.
  pose proof (Nat.div_mod_eq n caches) as Hn.
  pose proof (Nat.mod_upper_bound n caches) as Hr.
  destruct (decide (S (n mod caches) < caches)%nat) as [Hroom | Hwrap].
  - assert (Hq : (S n / caches = n / caches)%nat).
    { symmetry. apply (Nat.div_unique (S n) caches _ (S (n mod caches))); lia. }
    assert (Hm : (S n mod caches = S (n mod caches))%nat).
    { symmetry. apply (Nat.mod_unique (S n) caches (n / caches)); lia. }
    rewrite Hq, Hm. repeat case_decide; lia.
  - assert (Hq : (S n / caches = S (n / caches))%nat).
    { symmetry. apply (Nat.div_unique (S n) caches _ 0); lia. }
    assert (Hm : (S n mod caches = 0)%nat).
    { symmetry. apply (Nat.mod_unique (S n) caches (S (n / caches))); lia. }
    rewrite Hq, Hm. repeat case_decide; lia.
Qed.

(** The cacher with offset [c] serves the actors whose id is [c] modulo
    the number of cachers. *)
Lemma topology_load (self : DistributedDQN) (name : string)
    (eps : list Np.power) (c : nat) :
  (c < Z.to_nat (_num_caches self))%nat ->
  load (topology self name eps) (3 + Z.to_nat (_num_evaluators self) + c)%nat =
    (length eps / Z.to_nat (_num_caches self)
     + (if decide (c < length eps mod Z.to_nat (_num_caches self)) then 1 else 0))%nat.
Proof.
  intros Hc. unfold load. rewrite topology_actor_nodes.
  induction eps as [| e eps IH] using rev_ind.
  - simpl. rewrite Nat.Div0.div_0_l, Nat.Div0.mod_0_l.
    rewrite decide_False by lia. reflexivity.
  - rewrite imap_app, filter_app, !length_app, IH. simpl imap.
    rewrite filter_cons, filter_nil. cbn [variable_source_of actor_node].
    rewrite Nat.add_0_r. simpl (length [e]). rewrite Nat.add_1_r.
    rewrite (mod_count_step _ c) by exact Hc.
    f_equal.
    destruct (decide (length eps mod Z.to_nat (_num_caches self) = c)%nat)
      as [Heq | Hne].
    + rewrite decide_True by (rewrite Heq; reflexivity). reflexivity.
    + rewrite decide_False; [reflexivity |].
      intros Hsome. injection Hsome as Hsome. lia.
Qed.

(** C4: for every [num_actors] and every [num_caches >= 1], [build]
    gives actor [i] the cacher of index [i mod num_caches] as its variable
    source, and the numbers of actors of any two cachers differ by at
    most one.  (A negative [num_actors] makes [np.logspace] raise
    [ValueError]: no program, and no actor, is built.) *)
Theorem actors_round_robin (self : DistributedDQN) (name : string) :
  1 <= _num_caches self ->
  (_num_actors self < 0 /\ build self name = Raise ValueError) \/
  (exists p,
      build self name = Ok p /\
      length (actor_nodes p) = Z.to_nat (_num_actors self) /\
      length (cachers p) = Z.to_nat (_num_caches self) /\
      (forall i n,
          actor_nodes p !! i = Some n ->
          exists h,
            variable_source_of n = Some h /\
            cachers p !! (i mod Z.to_nat (_num_caches self))%nat = Some h) /\
      (forall h1 h2,
          h1 ∈ cachers p -> h2 ∈ cachers p ->
          (load p h1 <= load p h2 + 1)%nat)).
Proof.
  intros Hcaches.
  destruct (build_outcome self name)
    as [Hraise | (eps & _ & Hlen & _ & [(Hnone & _) | (_ & Hbuild)])];
    [left; exact Hraise | lia |].
  right. exists (topology self name eps). split; [exact Hbuild |].
  rewrite topology_actor_nodes, topology_cachers.
  split; [rewrite length_imap; exact Hlen |].
  split; [apply length_seq |]. split.
  - intros i n Hn. rewrite list_lookup_imap in Hn.
    destruct (eps !! i) as [e |]; [| discriminate].
    injection Hn as <-. eexists. split; [reflexivity |].
    apply lookup_seq_lt. apply Nat.mod_upper_bound. lia.
  - intros h1 h2 Hh1 Hh2.
    apply list_elem_of_lookup in Hh1 as [c1 Hc1].
    apply list_elem_of_lookup in Hh2 as [c2 Hc2].
    apply lookup_seq in Hc1 as [-> Hc1]. apply lookup_seq in Hc2 as [-> Hc2].
    rewrite !topology_load by assumption.
    repeat case_decide; lia.
Qed.

Lemma actors_round_robin_ten_actors_three_cachers :
  let self :=
    attributes (with_num_caches 3 (default_args 10)) (SpecOf (Env false)) in
  (_num_actors self < 0 /\ build self "dqn" = Raise ValueError) \/
  (exists p,
      build self "dqn" = Ok p /\
      length (actor_nodes p) = 10%nat /\
      length (cachers p) = 3%nat /\
      (forall i n,
          actor_nodes p !! i = Some n ->
          exists h,
            variable_source_of n = Some h /\
            cachers p !! (i mod 3)%nat = Some h) /\
      (forall h1 h2,
          h1 ∈ cachers p -> h2 ∈ cachers p ->
          (load p h1 <= load p h2 + 1)%nat)).
Proof.
  apply (actors_round_robin
           (attributes (with_num_caches 3 (default_args 10)) (SpecOf (Env false)))
           "dqn").
  simpl. lia.
Defined.

(** The actor nodes carry the epsilons of the schedule, in order. *)
Lemma topology_actor_epsilons (self : DistributedDQN) (name : string)
    (eps : list Np.power) :
  epsilon_of <$> actor_nodes (topology self name eps) = Some <$> eps.
Proof.
  rewrite topology_actor_nodes. apply list_eq. intros i.
  rewrite !list_lookup_fmap, list_lookup_imap.
  destruct (eps !! i); reflexivity.
Qed.

Lemma range_lookup (n : Z) (i : nat) :
  (i < Z.to_nat n)%nat -> range n !! i = Some (Z.of_nat i).
Proof.
  intros Hi. unfold range. rewrite list_lookup_fmap, lookup_seq_lt by exact Hi.
  reflexivity.
Qed.

(** C7: in the topology built by [build], every one of the
    [num_evaluators] evaluator nodes, with ids 0 to [num_evaluators - 1],
    is given the learner node itself as its variable source, which is not
    a cacher; and every actor node is given a cacher node, a cache of the
    learner.  ([build] returns no topology when [num_actors] is negative,
    or when there is an actor and no cacher.) *)
Theorem evaluators_read_learner_actors_read_cachers
    (self : DistributedDQN) (name : string) :
  (_num_actors self < 0 /\ build self name = Raise ValueError) \/
  (_num_caches self < 1 /\ 1 <= _num_actors self /\
   build self name = Raise ZeroDivisionError) \/
  (exists p learner,
      build self name = Ok p /\
      node_of p learner = Some (CourierNode m_learner [Handle 0%nat; Handle 1%nat]) /\
      (learner ∉ cachers p) /\
      length (group_nodes p "evaluator") = Z.to_nat (_num_evaluators self) /\
      (forall i,
          (i < Z.to_nat (_num_evaluators self))%nat ->
          exists n counter,
            group_nodes p "evaluator" !! i = Some n /\
            n = CourierNode m_evaluator
                  [Handle learner; Handle counter; Int (Z.of_nat i)] /\
            variable_source_of n = Some learner) /\
      (forall n,
          n ∈ actor_nodes p ->
          exists h,
            variable_source_of n = Some h /\
            h ∈ cachers p /\
            (h <> learner) /\
            node_of p h = Some (CacherNode learner 2000 4000))).
Proof.
  destruct (build_outcome self name)
    as [Hraise | (eps & _ & Hlen & Hnum & [Hzero | (Hshape & Hbuild)])];
    [left; exact Hraise | right; left; exact Hzero |].
  right. right. exists (topology self name eps), 2%nat.
  split; [exact Hbuild |]. split; [apply topology_learner |].
  rewrite topology_evaluator_nodes. split; [| split; [| split]].
  - rewrite topology_cachers. intros Hin.
    apply list_elem_of_lookup in Hin as [c Hc].
    apply lookup_seq in Hc as [Hc _]. lia.
  - rewrite length_fmap. apply range_length.
  - intros i Hi. eexists _, _. split; [| split; reflexivity].
    rewrite list_lookup_fmap, range_lookup by exact Hi. reflexivity.
  - intros n Hn. rewrite topology_actor_nodes in Hn.
    apply list_elem_of_lookup in Hn as [i Hn].
    rewrite list_lookup_imap in Hn.
    destruct (eps !! i) as [e |] eqn:He; [| discriminate].
    injection Hn as <-.
    assert (Hi : (i < length eps)%nat) by (eapply lookup_lt_Some; exact He).
    assert (Hcaches : (0 < Z.to_nat (_num_caches self))%nat) by lia.
    assert (Hin : (3 + Z.to_nat (_num_evaluators self)
                   + i mod Z.to_nat (_num_caches self))%nat
                  ∈ cachers (topology self name eps)).
    { rewrite topology_cachers. apply list_elem_of_lookup.
      exists (i mod Z.to_nat (_num_caches self))%nat.
      apply lookup_seq_lt. apply Nat.mod_upper_bound. lia. }
    eexists. split; [reflexivity |]. split; [exact Hin |]. split; [lia |].
    apply topology_cacher_node. exact Hin.
Qed.

(** ** Runs on concrete configurations *)

Example linspace_eight_samples :
  match Np.linspace 1 8 8 with
  | Ok ys => Qred <$> ys
  | Raise _ => []
  end = [1; 2; 3; 4; 5; 6; 7; 8]%Q.
Proof. reflexivity. Qed.

Example linspace_one_sample : Np.linspace 1 8 1 = Ok [(0 * (8 - 1) + 1)%Q].
Proof. reflexivity. Qed.

Example linspace_negative : Np.linspace 1 8 (-1) = Raise ValueError.
Proof. reflexivity. Qed.

Example epsilons_eight_exponents :
  match epsilons (attributes (default_args 8) (SpecOf (Env false))) with
  | Ok eps => (fun e => Qred (Np.exponent e)) <$> eps
  | Raise _ => []
  end = [8; 7; 6; 5; 4; 3; 2; 1]%Q.
Proof. reflexivity. Qed.

Example insert_evicts_oldest :
  Reverb.insert_all 2 [10; 20; 30; 40] = Ok [30; 40].
Proof. reflexivity. Qed.

Example table_without_capacity_is_refused :
  Reverb.insert_all 0 [10] = Raise ValueError /\
  Reverb.insert_all (-1) ([] : list Z) = Raise ValueError.
Proof. split; reflexivity. Qed.

Lemma float_to_R_one :
  float_to_R (S754_finite false 4503599627370496 (-52)) = 1%R.
Proof.
  unfold float_to_R, cond_Zopp, powerRZ. rewrite pow_IZR.
  replace (Z.of_nat (Pos.to_nat 52)) with 52 by reflexivity.
  simpl (2 ^ 52). Lra.lra.
Qed.

Lemma float_to_R_eight :
  float_to_R (S754_finite false 4503599627370496 (-49)) = 8%R.
Proof.
  unfold float_to_R, cond_Zopp, powerRZ. rewrite pow_IZR.
  replace (Z.of_nat (Pos.to_nat 49)) with 49 by reflexivity.
  simpl (2 ^ 49). Lra.lra.
Qed.

(** The example of spec 8: priorities 1.0, 1.0 and 8.0 with exponent 1.0;
    the third item is drawn with probability 0.8. *)
Example prioritized_one_one_eight :
  let one := S754_finite false 4503599627370496 (-52) in
  let eight := S754_finite false 4503599627370496 (-49) in
  Reverb.selection_probability (Reverb.Prioritized one) [one; one; eight] 2
  = (8 / 10)%R.
Proof.
  cbv zeta. unfold Reverb.selection_probability, Reverb.total_weight, Reverb.weight.
  cbn [lookup list_lookup fmap list_fmap foldr].
  rewrite float_to_R_one, float_to_R_eight.
  destruct (Rlt_dec 0 8) as [_ | Habs]; [| exfalso; Lra.lra].
  destruct (Rlt_dec 0 1) as [_ | Habs]; [| exfalso; Lra.lra].
  rewrite !Rpower_1 by Lra.lra.
  destruct (Rlt_dec 0 (1 + (1 + (8 + 0)))) as [_ | Habs]; [| exfalso; Lra.lra].
  Lra.lra.
Qed.

Example replay_default_limiter :
  Reverb.rate_limiter
    <$> replay (attributes (default_args 8) (SpecOf (Env false))) =
  [Reverb.SampleToInsertRatio 1000 (S754_finite false 4503599627370496 (-47)) 256].
Proof. reflexivity. Qed.

Example build_ten_actors_three_cachers :
  match build (attributes (with_num_caches 3 (default_args 10)) (SpecOf (Env false)))
          "dqn" with
  | Ok p =>
      (cachers p, load p <$> cachers p, variable_source_of <$> actor_nodes p)
  | Raise _ => ([], [], [])
  end =
  ([4; 5; 6]%nat, [4; 3; 3]%nat,
   Some <$> [4; 5; 6; 4; 5; 6; 4; 5; 6; 4]%nat).
Proof. vm_compute. reflexivity. Qed.

Example build_negative_actors :
  build (attributes (default_args (-1)) (SpecOf (Env false))) "dqn"
  = Raise ValueError.
Proof. reflexivity. Qed.

Example build_without_cacher :
  build (attributes (with_num_caches 0 (default_args 2)) (SpecOf (Env false))) "dqn"
  = Raise ZeroDivisionError.
Proof. reflexivity. Qed.

Example actor_trace :
  snd (actor (attributes (default_args 8) (SpecOf (Env false)))
         0%nat 4%nat 1%nat (Np.Power 0.4 8) []) =
  [call_environment_factory false; call_network_factory; call_create_variables;
   call_VariableClient 4%nat 1000; call_update_and_wait 4%nat;
   call_NStepTransitionAdder; call_Counter "actor"; call_AtariEpsilonSchedule;
   call_FeedForwardActorWithEpsilonSchedule; call_make_default_logger "actor";
   call_EnvironmentLoop].
Proof. reflexivity. Qed.

Example evaluator_trace :
  snd (evaluator (attributes (default_args 8) (SpecOf (Env false)))
         2%nat 1%nat 1 []) =
  [call_environment_factory true; call_network_factory; call_Sequential;
   call_create_variables; call_VariableClient 2%nat 1; call_update_and_wait 2%nat;
   call_FeedForwardActor; call_Counter "evaluator1"; call_evaluator_cls 1].
Proof. reflexivity. Qed.

(** * Further properties *)

(** ** The constructor and what [build] returns *)

Lemma init_inversion (a : Args) (t t' : Acme.trace) (self : DistributedDQN) :
  __init__ a t = (Ok self, t') ->
  1 <= num_caches a /\ exists environment_spec, self = attributes a environment_spec.
Proof.
  unfold __init__, assert. rewrite bind_run.
  destruct (Z.leb_spec 1 (num_caches a)) as [Hcaches | _]; [| discriminate].
  intros Hrun. split; [exact Hcaches |].
  unfold Py.ret at 1 in Hrun. rewrite bind_run in Hrun.
  destruct (environment_spec a) as [spec |].
  - exists spec. unfold mret, M_ret, Py.ret in Hrun.
    inversion Hrun. reflexivity.
  - exists (SpecOf (Env false)). simpl in Hrun.
    inversion Hrun. reflexivity.
Qed.

(** X1: a constructor call that passes the assertion stores every
    argument unchanged.  When an environment specification is supplied
    it is kept and no collaborator is called; when it is [None] the
    environment factory is called exactly once, with [False], and the
    specification is derived from that environment. *)
Theorem init_environment_spec (a : Args) (t : Acme.trace) :
  1 <= num_caches a ->
  exists self calls,
    __init__ a t = (Ok self, t ++ calls) /\
    self = attributes a (_env_spec self) /\
    (forall s, environment_spec a = Some s -> calls = [] /\ _env_spec self = s) /\
    (environment_spec a = None ->
     factory_requests calls = [false] /\
     calls = [call_environment_factory false; call_make_environment_spec] /\
     _env_spec self = SpecOf (Env false)).
Proof.
  intros Hcaches. unfold __init__, assert. rewrite bind_run.
  destruct (Z.leb_spec 1 (num_caches a)) as [_ |]; [| lia].
  unfold Py.ret at 1. rewrite bind_run.
  destruct (environment_spec a) as [spec |] eqn:Hspec.
  - exists (attributes a spec), []. rewrite app_nil_r.
    split; [reflexivity |]. split; [reflexivity |].
    split; [| discriminate]. intros s Hs. injection Hs as <-.
    split; reflexivity.
  - exists (attributes a (SpecOf (Env false))),
      [call_environment_factory false; call_make_environment_spec].
    split.
    + unfold mbind, M_bind, Py.bind, issue, modify, mret, M_ret, Py.ret.
      rewrite <- app_assoc. reflexivity.
    + split; [reflexivity |]. split; [discriminate |]. intros _.
      repeat split.
Qed.

Lemma init_environment_spec_default :
  exists self calls,
    __init__ (default_args 8) [] = (Ok self, [] ++ calls) /\
    self = attributes (default_args 8) (_env_spec self) /\
    (forall s,
        environment_spec (default_args 8) = Some s ->
        calls = [] /\ _env_spec self = s) /\
    (environment_spec (default_args 8) = None ->
     factory_requests calls = [false] /\
     calls = [call_environment_factory false; call_make_environment_spec] /\
     _env_spec self = SpecOf (Env false)).
Proof.
  apply (init_environment_spec (default_args 8) []). simpl. lia.
Defined.

Lemma build_ok (self : DistributedDQN) (name : string) :
  0 <= _num_actors self ->
  1 <= _num_caches self \/ _num_actors self = 0 ->
  exists eps,
    epsilons self = Ok eps /\
    length eps = Z.to_nat (_num_actors self) /\
    build self name = Ok (topology self name eps).
Proof.
  intros Hactors Hcaches.
  destruct (build_outcome self name)
    as [[Hneg _] | (eps & Heps & Hlen & _ & [(Hnone & Hsome & _) | (_ & Hbuild)])];
    [lia | lia |].
  exists eps. auto.
Qed.

(** X2: [build] raises [ValueError] exactly when [num_actors] is
    negative, [ZeroDivisionError] exactly when there is an actor and no
    cacher, and returns a program in every other case; it raises nothing
    else. *)
Theorem build_raises_exactly (self : DistributedDQN) (name : string) :
  (build self name = Raise ValueError <-> _num_actors self < 0) /\
  (build self name = Raise ZeroDivisionError <->
   1 <= _num_actors self /\ _num_caches self < 1) /\
  ((exists p, build self name = Ok p) <->
   0 <= _num_actors self /\ (1 <= _num_caches self \/ _num_actors self = 0)) /\
  build self name <> Raise IndexError /\
  build self name <> Raise AssertionError.
Proof.
  destruct (build_outcome self name)
    as [[Hneg Hrun]
       | (eps & _ & _ & Hnum & [(Hnone & Hsome & Hrun) | (Hshape & Hrun)])];
    rewrite Hrun;
    repeat match goal with
           | |- _ /\ _ => split
           | |- _ <-> _ => split
           | |- _ <> _ => intro
           | |- _ -> _ => intro
           | H : exists _, _ |- _ => destruct H
           | H : _ /\ _ |- _ => destruct H
           end;
    try discriminate; try lia; try reflexivity; eauto.
Qed.

(** X3: an instance that the constructor returned always has a cacher,
    so [build] on it never divides by zero: it returns a program when
    [num_actors >= 0] and raises [ValueError] otherwise. *)
Theorem constructed_agent_builds
    (a : Args) (t t' : Acme.trace) (self : DistributedDQN) (name : string) :
  __init__ a t = (Ok self, t') ->
  build self name <> Raise ZeroDivisionError /\
  (0 <= num_actors a -> exists p, build self name = Ok p) /\
  (num_actors a < 0 -> build self name = Raise ValueError).
Proof.
  intros Hinit.
  destruct (init_inversion a t t' self Hinit) as [Hcaches [spec ->]].
  destruct (build_outcome (attributes a spec) name)
    as [[Hneg Hrun]
       | (eps & _ & _ & Hnum & [(Hnone & _) | (_ & Hrun)])];
    simpl in *; [| lia |]; rewrite Hrun.
  - split; [discriminate |]. split; [lia | reflexivity].
  - split; [discriminate |]. split; [eauto | lia].
Qed.

Lemma constructed_agent_builds_default :
  build (attributes (default_args 8) (SpecOf (Env false))) "dqn"
    <> Raise ZeroDivisionError /\
  (0 <= num_actors (default_args 8) ->
   exists p, build (attributes (default_args 8) (SpecOf (Env false))) "dqn" = Ok p) /\
  (num_actors (default_args 8) < 0 ->
   build (attributes (default_args 8) (SpecOf (Env false))) "dqn" = Raise ValueError).
Proof.
  apply (constructed_agent_builds (default_args 8) []
           [call_environment_factory false; call_make_environment_spec]).
  reflexivity.
Defined.

(** ** The shape of the topology *)

(** The node behind each handle of the topology. *)
Lemma topology_node_cases (self : DistributedDQN) (name : string)
    (eps : list Np.power) (k : handle) (n : node) :
  node_of (topology self name eps) k = Some n ->
  (k = 0%nat /\ n = ReverbNode m_replay) \/
  (k = 1%nat /\ n = CourierNode m_counter []) \/
  (k = 2%nat /\ n = CourierNode m_learner [Handle 0%nat; Handle 1%nat]) \/
  (exists i,
      k = (3 + i)%nat /\ (i < Z.to_nat (_num_evaluators self))%nat /\
      n = CourierNode m_evaluator [Handle 2%nat; Handle 1%nat; Int (Z.of_nat i)]) \/
  (exists c,
      k = (3 + Z.to_nat (_num_evaluators self) + c)%nat /\
      (c < Z.to_nat (_num_caches self))%nat /\
      n = CacherNode 2%nat 2000 4000) \/
  (exists i e,
      k = (3 + Z.to_nat (_num_evaluators self) + Z.to_nat (_num_caches self) + i)%nat /\
      eps !! i = Some e /\
      n = actor_node (3 + Z.to_nat (_num_evaluators self))%nat
            (Z.to_nat (_num_caches self)) i e).
Proof.
  unfold node_of. rewrite topology_nodes_closed, app_nil_r.
  destruct (_ !! k) as [[g n'] |] eqn:Hk; [| discriminate].
  simpl. intros Hn. injection Hn as ->.
  change (labelled "replay" [ReverbNode m_replay] ++
          labelled "counter" [CourierNode m_counter []] ++
          labelled "learner" [CourierNode m_learner [Handle 0%nat; Handle 1%nat]] ++
          ?rest)
    with ([(Some "replay"%string, ReverbNode m_replay);
           (Some "counter"%string, CourierNode m_counter []);
           (Some "learner"%string,
            CourierNode m_learner [Handle 0%nat; Handle 1%nat])] ++ rest)
    in Hk.
  apply lookup_app_Some in Hk as [Hk | [Hge Hk]].
  - destruct k as [| [| [| k]]]; simpl in Hk; try discriminate;
      injection Hk as <- <-; tauto.
  - simpl in Hge. do 3 right.
    apply lookup_app_Some in Hk as [Hk | [Hge2 Hk]].
    + left. unfold labelled in Hk. rewrite <- list_fmap_compose in Hk.
      apply list_lookup_fmap_Some in Hk as (z & Heq & Hz).
      unfold range in Hz. apply list_lookup_fmap_Some in Hz as (i & -> & Hi).
      apply lookup_seq in Hi as [-> Hi]. simpl in Heq. injection Heq as _ ->.
      exists (k - 3)%nat. simpl in *. split; [lia |]. split; [lia |].
      reflexivity.
    + right. unfold labelled at 1 in Hge2. unfold labelled at 1 in Hk.
      rewrite !length_fmap, range_length in Hge2, Hk.
      apply lookup_app_Some in Hk as [Hk | [Hge3 Hk]].
      * left. unfold labelled in Hk.
        apply list_lookup_fmap_Some in Hk as (c & Heq & Hc).
        apply lookup_replicate in Hc as [-> Hc]. injection Heq as _ ->.
        exists (k - 3 - Z.to_nat (_num_evaluators self))%nat.
        simpl in *. split; [lia |]. split; [lia | reflexivity].
      * right. unfold labelled in Hge3, Hk.
        rewrite length_fmap, length_replicate in Hge3, Hk.
        apply list_lookup_fmap_Some in Hk as (a & Heq & Ha).
        rewrite list_lookup_imap in Ha.
        destruct (eps !! _) as [e |] eqn:He; [| discriminate].
        simpl in Ha. injection Ha as <-. injection Heq as _ ->.
        eexists _, e. split; [| split; [exact He | reflexivity]].
        simpl in *. lia.
Qed.

Lemma topology_length (self : DistributedDQN) (name : string)
    (eps : list Np.power) :
  length (nodes (topology self name eps)) =
    (3 + Z.to_nat (_num_evaluators self) + Z.to_nat (_num_caches self)
     + length eps)%nat.
Proof.
  rewrite topology_nodes_closed. unfold labelled.
  rewrite !length_app, !length_fmap, range_length, length_replicate, length_imap.
  simpl. lia.
Qed.

(** X4: when [num_actors >= 0] and there is a cacher (or no actor),
    [build] returns a program of that name, every [with] block closed,
    that holds exactly one replay node, one counter and one learner
    (wired to that replay and that counter), then [num_evaluators]
    evaluators, [num_caches] cachers and [num_actors] actors, and nothing
    else; counts that are negative stand for zero. *)
Theorem build_program_shape (self : DistributedDQN) (name : string) :
  0 <= _num_actors self ->
  1 <= _num_caches self \/ _num_actors self = 0 ->
  exists p,
    build self name = Ok p /\
    Lp.name p = name /\
    current_group p = None /\
    group_nodes p "replay" = [ReverbNode m_replay] /\
    group_nodes p "counter" = [CourierNode m_counter []] /\
    group_nodes p "learner"
      = [CourierNode m_learner [Handle 0%nat; Handle 1%nat]] /\
    group_handles p "replay" = [0%nat] /\
    group_handles p "counter" = [1%nat] /\
    group_handles p "learner" = [2%nat] /\
    length (group_nodes p "evaluator") = Z.to_nat (_num_evaluators self) /\
    length (cachers p) = Z.to_nat (_num_caches self) /\
    length (actor_nodes p) = Z.to_nat (_num_actors self) /\
    length (nodes p) =
      (3 + Z.to_nat (_num_evaluators self) + Z.to_nat (_num_caches self)
       + Z.to_nat (_num_actors self))%nat.
Proof.
  intros Hactors Hcaches.
  destruct (build_ok self name Hactors Hcaches) as (eps & _ & Hlen & Hbuild).
  exists (topology self name eps). split; [exact Hbuild |].
  split; [reflexivity |]. split; [reflexivity |].
  rewrite topology_evaluator_nodes, topology_cachers, topology_actor_nodes,
    topology_length.
  unfold group_nodes, group_handles. rewrite topology_nodes_closed.
  repeat split.
  - read_groups. rewrite filter_nil. reflexivity.
  - read_groups. rewrite filter_nil. reflexivity.
  - read_groups. rewrite filter_nil. reflexivity.
  - read_groups. reflexivity.
  - read_groups. reflexivity.
  - read_groups. reflexivity.
  - rewrite length_fmap. apply range_length.
  - apply length_seq.
  - rewrite length_imap. exact Hlen.
  - lia.
Qed.

Lemma build_program_shape_ten_actors_three_cachers :
  let self :=
    attributes (with_num_caches 3 (default_args 10)) (SpecOf (Env false)) in
  exists p,
    build self "dqn" = Ok p /\
    Lp.name p = "dqn"%string /\
    current_group p = None /\
    group_nodes p "replay" = [ReverbNode m_replay] /\
    group_nodes p "counter" = [CourierNode m_counter []] /\
    group_nodes p "learner"
      = [CourierNode m_learner [Handle 0%nat; Handle 1%nat]] /\
    group_handles p "replay" = [0%nat] /\
    group_handles p "counter" = [1%nat] /\
    group_handles p "learner" = [2%nat] /\
    length (group_nodes p "evaluator") = 1%nat /\
    length (cachers p) = 3%nat /\
    length (actor_nodes p) = 10%nat /\
    length (nodes p) = 17%nat.
Proof.
  apply (build_program_shape
           (attributes (with_num_caches 3 (default_args 10)) (SpecOf (Env false)))
           "dqn").
  - simpl. lia.
  - left. simpl. lia.
Defined.

(** X5: in the program [build] returns, every handle a node holds
    refers to a node that was added before it: no handle dangles and none
    points forward. *)
Theorem build_handles_refer_back (self : DistributedDQN) (name : string) :
  0 <= _num_actors self ->
  1 <= _num_caches self \/ _num_actors self = 0 ->
  exists p,
    build self name = Ok p /\
    forall k n h,
      node_of p k = Some n -> h ∈ Wiring.handles_of n ->
      (h < k)%nat /\ is_Some (node_of p h).
Proof.
  intros Hactors Hcaches.
  destruct (build_ok self name Hactors Hcaches) as (eps & _ & Hlen & Hbuild).
  exists (topology self name eps). split; [exact Hbuild |].
  intros k n h Hn Hh.
  assert (Hk : (k < length (nodes (topology self name eps)))%nat).
  { unfold node_of in Hn. destruct (_ !! k) eqn:Hlook; [| discriminate].
    eapply lookup_lt_Some. exact Hlook. }
  assert (Hback : (h < k)%nat).
  { destruct (topology_node_cases self name eps k n Hn)
      as [[-> ->] | [[-> ->] | [[-> ->] | [(i & -> & Hi & ->)
         | [(c & -> & Hc & ->) | (i & e & -> & He & ->)]]]]];
      simpl in Hh; set_unfold in Hh.
    - contradiction.
    - contradiction.
    - lia.
    - lia.
    - lia.
    - assert ((i mod Z.to_nat (_num_caches self)
               < Z.to_nat (_num_caches self))%nat).
      { apply Nat.mod_upper_bound.
        apply lookup_lt_Some in He. lia. }
      lia. }
  split; [exact Hback |].
  unfold node_of. apply fmap_is_Some. apply lookup_lt_is_Some. lia.
Qed.

Lemma build_handles_refer_back_default :
  let self := attributes (default_args 8) (SpecOf (Env false)) in
  exists p,
    build self "dqn" = Ok p /\
    forall k n h,
      node_of p k = Some n -> h ∈ Wiring.handles_of n ->
      (h < k)%nat /\ is_Some (node_of p h).
Proof.
  apply (build_handles_refer_back
           (attributes (default_args 8) (SpecOf (Env false))) "dqn").
  - simpl. lia.
  - left. simpl. lia.
Defined.

(** X6: in the program [build] returns, every node is given arguments
    that fit the signature of the method it runs: the learner and every
    actor get the replay node and the counter node in that order, every
    evaluator and every actor gets a variable source (the learner or one
    of its caches) and the counter, every cacher caches a variable
    source, and the remaining argument is the id or the epsilon. *)
Theorem build_is_well_wired (self : DistributedDQN) (name : string) :
  0 <= _num_actors self ->
  1 <= _num_caches self \/ _num_actors self = 0 ->
  exists p, build self name = Ok p /\ Wiring.well_wired p = true.
Proof.
  intros Hactors Hcaches.
  destruct (build_ok self name Hactors Hcaches) as (eps & _ & Hlen & Hbuild).
  exists (topology self name eps). split; [exact Hbuild |].
  unfold Wiring.well_wired. apply forallb_forall. intros [g n] Hin.
  apply list_elem_of_In, list_elem_of_lookup in Hin as [k Hk].
  assert (Hn : node_of (topology self name eps) k = Some n).
  { unfold node_of, handle. rewrite Hk. reflexivity. }
  destruct (topology_node_cases self name eps k n Hn)
    as [[-> ->] | [[-> ->] | [[-> ->] | [(i & -> & Hi & ->)
       | [(c & -> & Hc & ->) | (i & e & -> & He & ->)]]]]];
    try reflexivity.
  assert (Hmod : (i mod Z.to_nat (_num_caches self)
                  < Z.to_nat (_num_caches self))%nat).
  { apply Nat.mod_upper_bound. apply lookup_lt_Some in He. lia. }
  cbn [snd Wiring.well_wired_node actor_node Wiring.parameters
       Wiring.accepts_all Wiring.accepts].
  rewrite (topology_cacher_node self name eps
             (3 + Z.to_nat (_num_evaluators self)
              + i mod Z.to_nat (_num_caches self))%nat).
  - reflexivity.
  - rewrite topology_cachers. apply list_elem_of_lookup.
    exists (i mod Z.to_nat (_num_caches self))%nat.
    apply lookup_seq_lt. exact Hmod.
Qed.

Lemma build_is_well_wired_default :
  let self := attributes (default_args 8) (SpecOf (Env false)) in
  exists p, build self "dqn" = Ok p /\ Wiring.well_wired p = true.
Proof.
  apply (build_is_well_wired
           (attributes (default_args 8) (SpecOf (Env false))) "dqn").
  - simpl. lia.
  - left. simpl. lia.
Defined.

Lemma sum_list_with_offset {A} (a : nat) (f : A -> nat) (l : list A) :
  sum_list ((fun x => a + f x)%nat <$> l) = (length l * a + sum_list (f <$> l))%nat.
Proof.
  induction l as [| x l IH]; [reflexivity |].
  rewrite !fmap_cons. cbn [sum_list_with length]. rewrite IH.
  unfold Datatypes.id. rewrite Nat.mul_succ_l. lia.
Qed.

Lemma sum_list_below (r n : nat) :
  (r <= n)%nat ->
  sum_list ((fun c => if decide (c < r)%nat then 1 else 0)%nat <$> seq 0 n) = r.
Proof.
  induction n as [| n IH]; intros Hr.
  - simpl. lia.
  - rewrite seq_S, fmap_app, sum_list_with_app. simpl.
    destruct (decide (r <= n)%nat) as [Hle | Hgt].
    + rewrite IH by exact Hle. rewrite decide_False by lia. lia.
    + assert (r = S n) as -> by lia.
      rewrite decide_True by lia.
      assert (Hall : sum_list ((fun c => if decide (c < S n)%nat then 1 else 0)%nat
                                 <$> seq 0 n) = n).
      { rewrite (sum_list_fmap_same 1).
        - rewrite length_seq. lia.
        - apply Forall_forall. intros c Hc.
          apply elem_of_seq in Hc. rewrite decide_True by lia. reflexivity. }
      rewrite Hall. lia.
Qed.

(** X7: every actor is served by exactly one cacher: the loads of the
    cachers of the program [build] returns add up to [num_actors]. *)
Theorem cacher_loads_add_up (self : DistributedDQN) (name : string) :
  0 <= _num_actors self ->
  1 <= _num_caches self ->
  exists p,
    build self name = Ok p /\
    sum_list (load p <$> cachers p) = Z.to_nat (_num_actors self) /\
    sum_list (load p <$> cachers p) = length (actor_nodes p).
Proof.
  intros Hactors Hcaches.
  destruct (build_ok self name Hactors (or_introl Hcaches))
    as (eps & _ & Hlen & Hbuild).
  exists (topology self name eps). split; [exact Hbuild |].
  rewrite topology_actor_nodes, length_imap, Hlen.
  cut (sum_list (load (topology self name eps) <$> cachers (topology self name eps))
       = Z.to_nat (_num_actors self)); [intros Hsum; split; exact Hsum |].
  rewrite topology_cachers.
  rewrite <- (Nat.add_0_r (3 + Z.to_nat (_num_evaluators self))) at 1.
  rewrite <- fmap_add_seq, <- list_fmap_compose.
  rewrite (list_fmap_ext _
             (fun c => (length eps / Z.to_nat (_num_caches self)
                        + (if decide (c < length eps mod Z.to_nat (_num_caches self))%nat
                           then 1 else 0))%nat)).
  2:{ intros k c Hc. apply lookup_seq in Hc as [-> Hc]. simpl.
      apply topology_load. exact Hc. }
  rewrite sum_list_with_offset, length_seq.
  rewrite sum_list_below
    by (apply Nat.lt_le_incl, Nat.mod_upper_bound; lia).
  rewrite Hlen.
  pose proof (Nat.div_mod_eq (Z.to_nat (_num_actors self))
                (Z.to_nat (_num_caches self))).
  lia.
Qed.

Lemma cacher_loads_add_up_ten_actors_three_cachers :
  let self :=
    attributes (with_num_caches 3 (default_args 10)) (SpecOf (Env false)) in
  exists p,
    build self "dqn" = Ok p /\
    sum_list (load p <$> cachers p) = 10%nat /\
    sum_list (load p <$> cachers p) = length (actor_nodes p).
Proof.
  apply (cacher_loads_add_up
           (attributes (with_num_caches 3 (default_args 10)) (SpecOf (Env false)))
           "dqn").
  - simpl. lia.
  - simpl. lia.
Defined.

(** ** The epsilons the actors are given *)

Lemma Rpower_base_one : Rpower (Q2R 0.4) (Q2R 1) = 0.4%R.
Proof.
  destruct base_in_unit_interval as [Hb0 _].
  replace (Q2R 1) with 1%R.
  - apply Rpower_1. exact Hb0.
  - unfold Q2R. cbn [Qnum Qden]. Lra.lra.
Qed.

Lemma Rpower_base_eight : Rpower (Q2R 0.4) (Q2R 8) = (0.4 ^ 8)%R.
Proof.
  destruct base_in_unit_interval as [Hb0 _].
  replace (Q2R 8) with (INR 8).
  - apply Rpower_pow. exact Hb0.
  - unfold Q2R. cbn [Qnum Qden]. simpl. Lra.lra.
Qed.

(** X8: with at least one actor and one cacher, the actor nodes of the
    program [build] returns carry the epsilons of the schedule in actor
    order: any two actors get different epsilons, the last actor gets
    0.4, and when there are at least two actors the first gets 0.4 ^ 8
    (a single actor gets 0.4). *)
Theorem build_actor_epsilons (self : DistributedDQN) (name : string) :
  1 <= _num_actors self ->
  1 <= _num_caches self ->
  exists p,
    build self name = Ok p /\
    (forall i j ni nj,
        i <> j ->
        actor_nodes p !! i = Some ni -> actor_nodes p !! j = Some nj ->
        exists ei ej,
          epsilon_of ni = Some ei /\ epsilon_of nj = Some ej /\
          Np.value ei <> Np.value ej) /\
    (exists n e,
        actor_nodes p !! (Z.to_nat (_num_actors self) - 1)%nat = Some n /\
        epsilon_of n = Some e /\ Np.value e = 0.4%R) /\
    (2 <= _num_actors self ->
     exists n e,
       actor_nodes p !! 0%nat = Some n /\
       epsilon_of n = Some e /\ Np.value e = (0.4 ^ 8)%R).
Proof.
  intros Hactors Hcaches.
  destruct (build_ok self name) as (eps & Heps & Hlen & Hbuild);
    [lia | left; exact Hcaches |].
  destruct (epsilons_schedule self Hactors)
    as (eps' & Heps' & _ & Hlook & Hrise & _).
  rewrite Heps in Heps'. injection Heps' as <-.
  exists (topology self name eps). split; [exact Hbuild |].
  rewrite topology_actor_nodes. split; [| split].
  - intros i j ni nj Hij Hi Hj.
    rewrite list_lookup_imap in Hi, Hj.
    destruct (eps !! i) as [ei |] eqn:Hei; [| discriminate].
    destruct (eps !! j) as [ej |] eqn:Hej; [| discriminate].
    injection Hi as <-. injection Hj as <-.
    exists ei, ej. split; [reflexivity |]. split; [reflexivity |].
    destruct (Nat.lt_total i j) as [Hlt | [Heq | Hgt]]; [| contradiction |].
    + apply Rlt_not_eq. apply (Hrise i j); assumption.
    + apply Rgt_not_eq. apply (Hrise j i); assumption.
  - destruct (lookup_lt_is_Some_2 eps (Z.to_nat (_num_actors self) - 1)%nat)
      as [e He]; [lia |].
    exists (actor_node (3 + Z.to_nat (_num_evaluators self))%nat
              (Z.to_nat (_num_caches self))
              (Z.to_nat (_num_actors self) - 1)%nat e), e.
    split; [rewrite list_lookup_imap, He; reflexivity |].
    split; [reflexivity |].
    destruct (Hlook _ _ He) as [Hbase Hexp].
    unfold Np.value. rewrite Hbase.
    rewrite (Qeq_eqR (Np.exponent e) 1); [apply Rpower_base_one |].
    rewrite Hexp.
    replace (_num_actors self - 1 - Z.of_nat (Z.to_nat (_num_actors self) - 1))
      with 0 by lia.
    generalize (7 / inject_Z (_num_actors self - 1))%Q. intros s.
    change (inject_Z 0) with 0%Q. ring.
  - intros Hmany.
    destruct (lookup_lt_is_Some_2 eps 0%nat) as [e He]; [lia |].
    exists (actor_node (3 + Z.to_nat (_num_evaluators self))%nat
              (Z.to_nat (_num_caches self)) 0%nat e), e.
    split; [rewrite list_lookup_imap, He; reflexivity |].
    split; [reflexivity |].
    destruct (Hlook _ _ He) as [Hbase Hexp].
    unfold Np.value. rewrite Hbase.
    rewrite (Qeq_eqR (Np.exponent e) 8); [apply Rpower_base_eight |].
    rewrite Hexp.
    replace (_num_actors self - 1 - Z.of_nat 0) with (_num_actors self - 1)
      by lia.
    destruct (step_positive (_num_actors self - 1)) as [_ Hspan]; [lia |].
    rewrite Hspan. reflexivity.
Qed.

Lemma build_actor_epsilons_default :
  let self := attributes (default_args 8) (SpecOf (Env false)) in
  exists p,
    build self "dqn" = Ok p /\
    (forall i j ni nj,
        i <> j ->
        actor_nodes p !! i = Some ni -> actor_nodes p !! j = Some nj ->
        exists ei ej,
          epsilon_of ni = Some ei /\ epsilon_of nj = Some ej /\
          Np.value ei <> Np.value ej) /\
    (exists n e,
        actor_nodes p !! 7%nat = Some n /\
        epsilon_of n = Some e /\ Np.value e = 0.4%R) /\
    (2 <= 8 ->
     exists n e,
       actor_nodes p !! 0%nat = Some n /\
       epsilon_of n = Some e /\ Np.value e = (0.4 ^ 8)%R).
Proof.
  apply (build_actor_epsilons
           (attributes (default_args 8) (SpecOf (Env false))) "dqn").
  - simpl. lia.
  - simpl. lia.
Defined.

(** ** The workers behind the nodes *)

Lemma evaluator_result self variable_source counter eval_id t :
  fst (evaluator self variable_source counter eval_id t) =
    Ok {| Acme.max_actor_steps := _max_actor_steps self;
          label := "evaluator" +:+ pretty eval_id;
          environment := Env (0 <? eval_id);
          Acme.actor :=
            mkFeedForwardActor (Net (_env_spec self)) (_evaluator_epsilon self)
              (mkVariableClient variable_source 1);
          Acme.counter := mkCounter counter ("evaluator" +:+ pretty eval_id);
          eval_id := eval_id |}.
Proof. reflexivity. Qed.

Lemma actor_result self replay variable_source counter epsilon t :
  fst (actor self replay variable_source counter epsilon t) =
    Ok (mkEnvironmentLoop (Env false)
          (mkEpsilonActor epsilon (mkCounter counter "actor")
             (Net (_env_spec self))
             (mkAdder replay (_n_step self) (_discount self)
                {[ DEFAULT_PRIORITY_TABLE :=
                     fun _ : Transition => _default_priority self ]})
             (mkVariableClient variable_source (_variable_update_period self)))
          (mkCounter counter "actor")
          (mkLogger "actor" false)).
Proof. reflexivity. Qed.

(** X9: of the evaluator nodes of the program [build] returns, the
    first, and only the first, runs on the training environment: the
    node in position [i] is given the id [i], and [evaluator] called with
    the arguments of that node requests the held-out environment exactly
    when [i > 0]. *)
Theorem build_first_evaluator_trains (self : DistributedDQN) (name : string) :
  0 <= _num_actors self ->
  1 <= _num_caches self \/ _num_actors self = 0 ->
  exists p,
    build self name = Ok p /\
    forall i n,
      group_nodes p "evaluator" !! i = Some n ->
      exists source counter loop t,
        n = CourierNode m_evaluator
              [Handle source; Handle counter; Int (Z.of_nat i)] /\
        Wiring.eval_id_of n = Some (Z.of_nat i) /\
        evaluator self source counter (Z.of_nat i) [] = (Ok loop, t) /\
        environment loop = Env (negb (Nat.eqb i 0)) /\
        factory_requests t = [negb (Nat.eqb i 0)].
Proof.
  intros Hactors Hcaches.
  destruct (build_ok self name Hactors Hcaches) as (eps & _ & _ & Hbuild).
  exists (topology self name eps). split; [exact Hbuild |].
  intros i n Hn. rewrite topology_evaluator_nodes in Hn.
  apply list_lookup_fmap_Some in Hn as (id & -> & Hid).
  unfold range in Hid. apply list_lookup_fmap_Some in Hid as (k & -> & Hk).
  apply lookup_seq in Hk as [-> _]. simpl (0 + i)%nat.
  destruct (evaluator_calls self 2%nat 1%nat (Z.of_nat i) [])
    as (loop & Hrun & Henv).
  exists 2%nat, 1%nat, loop. eexists.
  split; [reflexivity |]. split; [reflexivity |]. split; [exact Hrun |].
  assert (Hvariant : (0 <? Z.of_nat i) = negb (Nat.eqb i 0)).
  { destruct i; [reflexivity |]. simpl. reflexivity. }
  rewrite Henv, Hvariant. split; reflexivity.
Qed.

Lemma build_first_evaluator_trains_default :
  let self := attributes (default_args 8) (SpecOf (Env false)) in
  exists p,
    build self "dqn" = Ok p /\
    forall i n,
      group_nodes p "evaluator" !! i = Some n ->
      exists source counter loop t,
        n = CourierNode m_evaluator
              [Handle source; Handle counter; Int (Z.of_nat i)] /\
        Wiring.eval_id_of n = Some (Z.of_nat i) /\
        evaluator self source counter (Z.of_nat i) [] = (Ok loop, t) /\
        environment loop = Env (negb (Nat.eqb i 0)) /\
        factory_requests t = [negb (Nat.eqb i 0)].
Proof.
  apply (build_first_evaluator_trains
           (attributes (default_args 8) (SpecOf (Env false))) "dqn").
  - simpl. lia.
  - left. simpl. lia.
Defined.

(** X10: evaluators with different ids report under different names:
    the label of an evaluator is its counter prefix, two evaluators have
    the same one only if they have the same id, and it is never the
    prefix under which an actor counts. *)
Theorem evaluator_namespaces_distinct
    (self : DistributedDQN) (source source' counter counter' replay : handle)
    (i j : Z) (epsilon : Np.power) (t t' t'' : Acme.trace) :
  exists li lj la,
    fst (evaluator self source counter i t) = Ok li /\
    fst (evaluator self source' counter' j t') = Ok lj /\
    fst (actor self replay source counter epsilon t'') = Ok la /\
    label li = prefix (Acme.counter li) /\
    (label li = label lj <-> i = j) /\
    (prefix (Acme.counter li) = prefix (Acme.counter lj) <-> i = j) /\
    prefix (Acme.counter li) <> prefix (loop_counter la).
Proof.
  eexists _, _, _.
  split; [apply evaluator_result |]. split; [apply evaluator_result |].
  split; [apply actor_result |]. cbn [label Acme.counter prefix loop_counter].
  assert (Hinj : "evaluator" +:+ pretty i = "evaluator" +:+ pretty j <-> i = j).
  { split; [| intros ->; reflexivity].
    intros Heq. simpl in Heq. injection Heq as Heq.
    apply (inj pretty). exact Heq. }
  split; [reflexivity |]. split; [exact Hinj |]. split; [exact Hinj |].
  simpl. discriminate.
Qed.

(** X11: the evaluator constructor never builds an adder, and its
    signature takes no replay client to build one on; the actor
    constructor builds one, on the replay client it was given. *)
Theorem evaluator_builds_no_adder
    (self : DistributedDQN) (replay source counter : handle) (eval_id : Z)
    (epsilon : Np.power) :
  (call_NStepTransitionAdder ∉ snd (evaluator self source counter eval_id [])) /\
  (Wiring.client Wiring.Replay ∉ Wiring.parameters m_evaluator) /\
  (Wiring.client Wiring.Replay ∈ Wiring.parameters m_actor) /\
  (exists loop,
      fst (actor self replay source counter epsilon []) = Ok loop /\
      adder_client (adder (loop_actor loop)) = replay /\
      call_NStepTransitionAdder
        ∈ snd (actor self replay source counter epsilon [])).
Proof.
  split; [| split; [| split]].
  - destruct (evaluator_calls self source counter eval_id [])
      as (loop & Hrun & _).
    rewrite Hrun. cbn [snd app]. intros Hin.
    set_unfold in Hin. intuition discriminate.
  - simpl. intros Hin. set_unfold in Hin. intuition discriminate.
  - simpl. set_unfold. tauto.
  - eexists. split; [apply actor_result |]. split; [reflexivity |].
    destruct (actor_calls self replay source counter epsilon [])
      as (loop & Hrun & _).
    rewrite Hrun. simpl. set_unfold. tauto.
Qed.

(** X12: the actor's adder writes to the table that [replay] declares:
    its priority functions are keyed by exactly the name of that table,
    and the table's signature and the actor's network come from the same
    environment specification. *)
Theorem adder_writes_the_declared_table
    (self : DistributedDQN) (replay_client source counter : handle)
    (epsilon : Np.power) (t : Acme.trace) :
  exists table loop,
    replay self = [table] /\
    fst (actor self replay_client source counter epsilon t) = Ok loop /\
    dom (priority_fns (adder (loop_actor loop))) = {[ Reverb.name table ]} /\
    Reverb.signature table = NStepTransitionAdder_signature (_env_spec self) /\
    policy_network (loop_actor loop) = Net (_env_spec self).
Proof.
  eexists _, _. split; [reflexivity |]. split; [apply actor_result |].
  cbn [loop_actor adder priority_fns policy_network Reverb.name Reverb.signature].
  split; [apply dom_singleton_L |]. split; reflexivity.
Qed.

(** ** The learner and the counter *)

Lemma learner_calls self replay counter t :
  exists runner,
    Checkpointed.learner self replay counter t =
      (Ok runner,
       t ++ [Checkpointed.shared call_network_factory;
             Checkpointed.call_deepcopy;
             Checkpointed.shared call_create_variables;
             Checkpointed.shared call_create_variables;
             Checkpointed.call_TFClient replay;
             Checkpointed.call_make_reverb_dataset replay
               (_batch_size self) (_prefetch_size self);
             Checkpointed.shared (call_make_default_logger "learner");
             Checkpointed.shared (call_Counter "learner");
             Checkpointed.call_RainbowDQNLearner;
             Checkpointed.call_CheckpointingRunner "dqn_learner"]) /\
    Checkpointed.dataset (Checkpointed.wrapped runner) =
      Checkpointed.mkDataset replay (_batch_size self) (_prefetch_size self) /\
    Checkpointed.replay_client (Checkpointed.wrapped runner) = replay /\
    Checkpointed.counter_ (Checkpointed.wrapped runner) = mkCounter counter "learner" /\
    Checkpointed.network (Checkpointed.wrapped runner) = Net (_env_spec self) /\
    Checkpointed.target_network (Checkpointed.wrapped runner) = Net (_env_spec self) /\
    Checkpointed.subdirectory runner = "dqn_learner"%string.
Proof.
  eexists. split.
  - unfold Checkpointed.learner, Checkpointed.issue, modify, mbind, M_bind,
      Py.bind, mret, M_ret, Py.ret.
    rewrite <- !app_assoc. reflexivity.
  - repeat split.
Qed.

(** X13: the learner's dataset and replay client use the replay server
    it was given, and the dataset is read in batches of [batch_size],
    with [prefetch_size] batches fetched ahead; the rate limiter of the
    table [replay] declares has that same batch size as its error buffer
    when [samples_per_insert] is truthy, and no error buffer otherwise. *)
Theorem learner_batch_is_limiter_buffer
    (self : DistributedDQN) (replay_client counter : handle) :
  exists table runner t,
    replay self = [table] /\
    Checkpointed.learner self replay_client counter [] = (Ok runner, t) /\
    Checkpointed.server_address (Checkpointed.dataset (Checkpointed.wrapped runner))
      = replay_client /\
    Checkpointed.replay_client (Checkpointed.wrapped runner) = replay_client /\
    Checkpointed.dataset_batch_size
      (Checkpointed.dataset (Checkpointed.wrapped runner)) = _batch_size self /\
    Checkpointed.dataset_prefetch_size
      (Checkpointed.dataset (Checkpointed.wrapped runner)) = _prefetch_size self /\
    Reverb.error_buffer_of (Reverb.rate_limiter table) =
      (if truthy (_samples_per_insert self)
       then Some (Checkpointed.dataset_batch_size
                    (Checkpointed.dataset (Checkpointed.wrapped runner)))
       else None).
Proof.
  destruct (learner_calls self replay_client counter [])
    as (runner & Hrun & Hdataset & Hclient & _).
  eexists _, runner, _. split; [reflexivity |]. split; [exact Hrun |].
  rewrite Hdataset, Hclient. cbn [Checkpointed.server_address
    Checkpointed.dataset_batch_size Checkpointed.dataset_prefetch_size
    Reverb.rate_limiter].
  destruct (truthy (_samples_per_insert self)); repeat split.
Qed.

(** X14: neither the counter nor the learner constructor calls the
    environment factory; the learner trains a network and a target
    network of the same description, counts under a prefix that no actor
    and no evaluator uses, and checkpoints into another subdirectory
    than the counter, whose runner does not depend on the instance. *)
Theorem counter_and_learner_stand_alone
    (self self' : DistributedDQN) (replay source counter : handle)
    (eval_id : Z) (epsilon : Np.power) :
  exists counting learning ct lt la le,
    Checkpointed.counter self [] = (Ok counting, ct) /\
    Checkpointed.learner self replay counter [] = (Ok learning, lt) /\
    fst (Checkpointed.counter self' []) = Ok counting /\
    fst (actor self replay source counter epsilon []) = Ok la /\
    fst (evaluator self source counter eval_id []) = Ok le /\
    Checkpointed.factory_requests ct = [] /\
    Checkpointed.factory_requests lt = [] /\
    Checkpointed.network (Checkpointed.wrapped learning)
      = Checkpointed.target_network (Checkpointed.wrapped learning) /\
    prefix (Checkpointed.counter_ (Checkpointed.wrapped learning))
      <> prefix (loop_counter la) /\
    prefix (Checkpointed.counter_ (Checkpointed.wrapped learning))
      <> prefix (Acme.counter le) /\
    Checkpointed.subdirectory counting <> Checkpointed.subdirectory learning.
Proof.
  destruct (learner_calls self replay counter [])
    as (learning & Hrun & _ & _ & Hcounter & Hnet & Htarget & Hdir).
  eexists _, learning, _, _, _, _.
  split; [reflexivity |]. split; [exact Hrun |]. split; [reflexivity |].
  split; [apply actor_result |]. split; [apply evaluator_result |].
  rewrite Hcounter, Hnet, Htarget, Hdir.
  repeat split; simpl; discriminate.
Qed.

(** ** Which environment, and which variables *)

(** X15: an evaluator requests the held-out environment if and only if
    its id is positive: an id of zero or below, negative ids included,
    gets the training environment; an actor always gets the training
    environment, whatever its arguments. *)
Theorem held_out_environment_iff_positive_id
    (self : DistributedDQN) (replay source counter : handle) (eval_id : Z)
    (epsilon : Np.power) :
  exists le la te ta,
    evaluator self source counter eval_id [] = (Ok le, te) /\
    actor self replay source counter epsilon [] = (Ok la, ta) /\
    (environment le = Env true <-> 0 < eval_id) /\
    (environment le = Env false <-> eval_id <= 0) /\
    (factory_requests te = [true] <-> 0 < eval_id) /\
    loop_environment la = Env false /\
    factory_requests ta = [false].
Proof.
  destruct (evaluator_calls self source counter eval_id [])
    as (le & Heval & Henv).
  destruct (actor_calls self replay source counter epsilon [])
    as (la & Hactor & _).
  pose proof (actor_result self replay source counter epsilon []) as Hla.
  rewrite Hactor in Hla. injection Hla as ->.
  eexists le, _, _, _. split; [exact Heval |]. split; [exact Hactor |].
  rewrite Henv. cbn [loop_environment].
  destruct (Z.ltb_spec 0 eval_id) as [Hpos | Hnonpos]; simpl.
  - repeat split; try (intros; lia); try discriminate; auto.
  - repeat split; try (intros; lia); try discriminate; auto.
Qed.

Lemma actor_process_fetches self replay source counter epsilon actions :
  fetch_precedes source
    (snd (process (actor self replay source counter epsilon) actions [])).
Proof.
  destruct (actor_calls self replay source counter epsilon [])
    as (loop & Hrun & _).
  rewrite (process_trace _ _ _ actions Hrun). cbn [snd app].
  apply fetched_first_sound.
  apply (fetched_first_app source
           [call_environment_factory false; call_network_factory;
            call_create_variables;
            call_VariableClient source (_variable_update_period self);
            call_update_and_wait source;
            call_NStepTransitionAdder; call_Counter "actor";
            call_AtariEpsilonSchedule;
            call_FeedForwardActorWithEpsilonSchedule;
            call_make_default_logger "actor"; call_EnvironmentLoop]).
  - simpl. rewrite Nat.eqb_refl. reflexivity.
  - repeat (apply list_elem_of_here || apply list_elem_of_further).
Qed.

Lemma evaluator_process_fetches self source counter eval_id actions :
  fetch_precedes source
    (snd (process (evaluator self source counter eval_id) actions [])).
Proof.
  destruct (evaluator_calls self source counter eval_id [])
    as (loop & Hrun & _).
  rewrite (process_trace _ _ _ actions Hrun). cbn [snd app].
  apply fetched_first_sound.
  apply (fetched_first_app source
           [call_environment_factory (0 <? eval_id); call_network_factory;
            call_Sequential; call_create_variables;
            call_VariableClient source 1;
            call_update_and_wait source;
            call_FeedForwardActor;
            call_Counter ("evaluator" +:+ pretty eval_id);
            call_evaluator_cls eval_id]).
  - simpl. rewrite Nat.eqb_refl. reflexivity.
  - repeat (apply list_elem_of_here || apply list_elem_of_further).
Qed.

(** X16: in the program [build] returns, every actor node and every
    evaluator node holds the arguments of a worker that, once started
    with them, waits for variables from the very node it is wired to (a
    cacher for an actor, the learner for an evaluator) before it creates
    its loop or acts on its environment. *)
Theorem built_workers_fetch_from_their_source
    (self : DistributedDQN) (name : string) (actions : list call) :
  0 <= _num_actors self ->
  1 <= _num_caches self \/ _num_actors self = 0 ->
  exists p,
    build self name = Ok p /\
    (forall n,
        n ∈ actor_nodes p ->
        exists replay source counter epsilon,
          n = CourierNode m_actor
                [Handle replay; Handle source; Handle counter; Float epsilon] /\
          node_of p source = Some (CacherNode 2%nat 2000 4000) /\
          fetch_precedes source
            (snd (process (actor self replay source counter epsilon) actions []))) /\
    (forall n,
        n ∈ group_nodes p "evaluator" ->
        exists source counter id,
          n = CourierNode m_evaluator [Handle source; Handle counter; Int id] /\
          node_of p source
            = Some (CourierNode m_learner [Handle 0%nat; Handle 1%nat]) /\
          fetch_precedes source
            (snd (process (evaluator self source counter id) actions []))).
Proof.
  intros Hactors Hcaches.
  destruct (build_ok self name Hactors Hcaches) as (eps & _ & Hlen & Hbuild).
  exists (topology self name eps). split; [exact Hbuild |]. split.
  - intros n Hn. rewrite topology_actor_nodes in Hn.
    apply list_elem_of_lookup in Hn as [i Hn].
    rewrite list_lookup_imap in Hn.
    destruct (eps !! i) as [e |] eqn:He; [| discriminate].
    injection Hn as <-.
    assert (Hi : (i < length eps)%nat) by (eapply lookup_lt_Some; exact He).
    eexists _, _, _, _. split; [reflexivity |]. split.
    + apply topology_cacher_node. rewrite topology_cachers.
      apply list_elem_of_lookup.
      exists (i mod Z.to_nat (_num_caches self))%nat.
      apply lookup_seq_lt. apply Nat.mod_upper_bound. lia.
    + apply actor_process_fetches.
  - intros n Hn. rewrite topology_evaluator_nodes in Hn.
    apply list_elem_of_fmap in Hn as (id & -> & _).
    eexists _, _, _. split; [reflexivity |]. split.
    + apply topology_learner.
    + apply evaluator_process_fetches.
Qed.

Lemma built_workers_fetch_from_their_source_default :
  let self := attributes (default_args 8) (SpecOf (Env false)) in
  exists p,
    build self "dqn" = Ok p /\
    (forall n,
        n ∈ actor_nodes p ->
        exists replay source counter epsilon,
          n = CourierNode m_actor
                [Handle replay; Handle source; Handle counter; Float epsilon] /\
          node_of p source = Some (CacherNode 2%nat 2000 4000) /\
          fetch_precedes source
            (snd (process (actor self replay source counter epsilon) [] []))) /\
    (forall n,
        n ∈ group_nodes p "evaluator" ->
        exists source counter id,
          n = CourierNode m_evaluator [Handle source; Handle counter; Int id] /\
          node_of p source
            = Some (CourierNode m_learner [Handle 0%nat; Handle 1%nat]) /\
          fetch_precedes source
            (snd (process (evaluator self source counter id) [] []))).
Proof.
  apply (built_workers_fetch_from_their_source
           (attributes (default_args 8) (SpecOf (Env false))) "dqn" []).
  - simpl. lia.
  - left. simpl. lia.
Defined.

(** ** More runs on concrete configurations *)

Example well_wired_ten_actors_three_cachers :
  match build (attributes (with_num_caches 3 (default_args 10)) (SpecOf (Env false)))
          "dqn" with
  | Ok p => Wiring.well_wired p
  | Raise _ => false
  end = true.
Proof. vm_compute. reflexivity. Qed.

(** An actor given the counter where the replay client belongs is not
    well wired. *)
Example swapped_replay_and_counter_is_rejected :
  Wiring.well_wired
    {| Lp.name := "dqn";
       nodes :=
         [(Some "replay"%string, ReverbNode m_replay);
          (Some "counter"%string, CourierNode m_counter []);
          (Some "learner"%string,
           CourierNode m_learner [Handle 0%nat; Handle 1%nat]);
          (Some "actor"%string,
           CourierNode m_actor
             [Handle 1%nat; Handle 2%nat; Handle 0%nat; Float (Np.Power 0.4 1)])];
       current_group := None |} = false.
Proof. reflexivity. Qed.

Example learner_trace :
  snd (Checkpointed.learner (attributes (default_args 8) (SpecOf (Env false)))
         0%nat 1%nat []) =
  [Checkpointed.shared call_network_factory; Checkpointed.call_deepcopy;
   Checkpointed.shared call_create_variables;
   Checkpointed.shared call_create_variables;
   Checkpointed.call_TFClient 0%nat;
   Checkpointed.call_make_reverb_dataset 0%nat 256 4;
   Checkpointed.shared (call_make_default_logger "learner");
   Checkpointed.shared (call_Counter "learner");
   Checkpointed.call_RainbowDQNLearner;
   Checkpointed.call_CheckpointingRunner "dqn_learner"].
Proof. reflexivity. Qed.

Example counter_runner :
  fst (Checkpointed.counter (attributes (default_args 8) (SpecOf (Env false))) [])
  = Ok (Checkpointed.mkRunner Checkpointed.mkRootCounter 1 "counter" 2).
Proof. reflexivity. Qed.
